(** * Do-Gooder server: the control object, its session scope, its deferred
    broadcasts and the daily deed poll.

    Shallow embedding of [dogooder/control.py] and
    [dogooder/actions/insert_deed.py].  Python objects with mutable state
    become explicit state; a raised exception becomes the [Raise] result,
    and, as in Python, the effects made before the exception stay. *)

From Stdlib Require Import ZArith List Lia String Bool Floats Permutation.
Import ListNotations.
Local Open Scope Z_scope.

(** ** Exceptions and results *)

(** The exception classes the code raises or lets through.  [Exception]
    carries its message: the code raises the bare class with two different
    texts and callers can only tell them apart by the text. *)
Inductive Error : Type :=
| Exception (msg : string)
| ValueError
| OverflowError
| ZeroDivisionError
| AttributeError
| NoResultFound
| MultipleResultsFound.

(** [raise Exception('Deed already accomplished today')], control.py l.159. *)
Definition AlreadyAccomplishedError : Error :=
  Exception "Deed already accomplished today".

(** [raise Exception("Email or password incorrect")], control.py l.89. *)
Definition AuthenticationError : Error :=
  Exception "Email or password incorrect".

Inductive Result (A : Type) : Type :=
| Ok (a : A)
| Raise (e : Error).
Arguments Ok {A} a.
Arguments Raise {A} e.

(** The outcome as the caller of [_flush] sees it: [None] when the work
    returned, the exception otherwise. *)
Definition error_of {A} (r : Result A) : option Error :=
  match r with
  | Ok _ => None
  | Raise e => Some e
  end.

(** State and exceptions together.  The state after a [Raise] is the state
    at the point of the raise: Python undoes nothing by itself. *)
Definition SE (S A : Type) : Type := S -> Result A * S.

Definition ret {S A} (a : A) : SE S A := fun s => (Ok a, s).

Definition raise {S A} (e : Error) : SE S A := fun s => (Raise e, s).

Definition bind {S A B} (m : SE S A) (k : A -> SE S B) : SE S B :=
  fun s =>
    match m s with
    | (Ok a, s') => k a s'
    | (Raise e, s') => (Raise e, s')
    end.

Definition lift {S A} (r : Result A) : SE S A := fun s => (r, s).

Definition gets {S A} (f : S -> A) : SE S A := fun s => (Ok (f s), s).

Definition modify {S} (f : S -> S) : SE S unit := fun s => (Ok tt, f s).

Declare Scope se_scope.
Delimit Scope se_scope with se.
Notation "x <- m ;; k" := (bind m (fun x => k))
  (at level 61, m at next level, right associativity) : se_scope.
Notation "m ;;; k" := (bind m (fun _ => k))
  (at level 61, right associativity) : se_scope.

(** ** Naive datetimes

    What the code uses of Python's [datetime.datetime]: the constructor
    from a year, a month and a day, the three attributes, the addition of
    one day, the ordering and [strftime('%Y%m%d')]. *)
Module Datetime.

Record t : Type := make {
  year : Z;
  month : Z;
  day : Z;
  hour : Z;
  minute : Z;
  second : Z;
  microsecond : Z
}.

Definition MINYEAR : Z := 1.
Definition MAXYEAR : Z := 9999.

Definition is_leap (y : Z) : bool :=
  (y mod 4 =? 0) && (negb (y mod 100 =? 0) || (y mod 400 =? 0)).

Definition days_in_month (y m : Z) : Z :=
  if m =? 2 then (if is_leap y then 29 else 28)
  else if (m =? 4) || (m =? 6) || (m =? 9) || (m =? 11) then 30
  else 31.

Definition valid_date (y m d : Z) : bool :=
  (MINYEAR <=? y) && (y <=? MAXYEAR) &&
  (1 <=? m) && (m <=? 12) &&
  (1 <=? d) && (d <=? days_in_month y m).

(** A datetime object as Python can hold one. *)
Definition valid (x : t) : bool :=
  valid_date (year x) (month x) (day x) &&
  (0 <=? hour x) && (hour x <? 24) &&
  (0 <=? minute x) && (minute x <? 60) &&
  (0 <=? second x) && (second x <? 60) &&
  (0 <=? microsecond x) && (microsecond x <? 1000000).

(** [datetime.datetime(y, m, d)]: midnight of that day, [ValueError] when
    the three numbers are not a date. *)
Definition datetime (y m d : Z) : Result t :=
  if valid_date y m d then Ok (make y m d 0 0 0 0) else Raise ValueError.

(** [x + datetime.timedelta(days=1)]: [OverflowError] past the last day
    of [MAXYEAR]. *)
Definition add_one_day (x : t) : Result t :=
  if day x <? days_in_month (year x) (month x) then
    Ok (make (year x) (month x) (day x + 1)
             (hour x) (minute x) (second x) (microsecond x))
  else if month x <? 12 then
    Ok (make (year x) (month x + 1) 1
             (hour x) (minute x) (second x) (microsecond x))
  else if year x <? MAXYEAR then
    Ok (make (year x + 1) 1 1
             (hour x) (minute x) (second x) (microsecond x))
  else Raise OverflowError.

Definition lexico (c1 c2 : comparison) : comparison :=
  match c1 with
  | Eq => c2
  | _ => c1
  end.

(** Naive datetimes compare field by field, the year first. *)
Definition compare (a b : t) : comparison :=
  lexico (year a ?= year b)
  (lexico (month a ?= month b)
  (lexico (day a ?= day b)
  (lexico (hour a ?= hour b)
  (lexico (minute a ?= minute b)
  (lexico (second a ?= second b)
          (microsecond a ?= microsecond b)))))).

Definition ltb (a b : t) : bool :=
  match compare a b with
  | Lt => true
  | _ => false
  end.

(** [a >= b] *)
Definition geb (a b : t) : bool := negb (ltb a b).

(** [int(x.strftime('%Y%m%d'))] *)
Definition strftime_Ymd (x : t) : Z :=
  year x * 10000 + month x * 100 + day x.

End Datetime.

(** ** The persistent entities *)

(** The view of a Deed that goes to clients, [deed.to_json()]: the fields
    id, description and created, and percent_of_votes when the poll has
    added it. *)
Module DeedView.

Record t : Type := make {
  id : Z;
  description : string;
  created : Datetime.t;
  percent_of_votes : option float
}.

(** [result.update(percent_of_votes=percent)] *)
Definition update_percent_of_votes (v : t) (percent : float) : t :=
  make (id v) (description v) (created v) (Some percent).

End DeedView.

(** Modelled from the spec: the class [dogooder.model.user.User] is not
    among the sources.  A User has an identity, an email and a credential;
    only [id], [_email], [authenticate] and [to_json] are used here, and
    [authenticate] is a parameter of [Control]. *)
Module User.

Record t : Type := make {
  id : Z;
  _email : string;
  credential : string
}.

Record view : Type := make_view {
  view_id : Z;
  view_email : string
}.

Definition to_json (u : t) : view := make_view (id u) (_email u).

End User.

(** Modelled from the spec: the class [dogooder.model.deed.Deed] is not
    among the sources.  A Deed has an id, a description text and a creation
    timestamp; its view has the fields id, description and created. *)
Module Deed.

Record t : Type := make {
  id : Z;
  description : string;
  created : Datetime.t
}.

Definition to_json (d : t) : DeedView.t :=
  DeedView.make (id d) (description d) (created d) None.

End Deed.

(** Modelled from the spec: the class
    [dogooder.model.accomplishment.Accomplishment] is not among the
    sources.  An Accomplishment has an id, refers to a Deed and to a User
    and has a completion timestamp. *)
Module Accomplishment.

Record t : Type := make {
  id : Z;
  deed_id : Z;
  user_id : Z;
  completed : Datetime.t
}.

End Accomplishment.

(** The rows of the three tables, in the order the database scans them. *)
Record Store : Type := mkStore {
  users : list User.t;
  deeds : list Deed.t;
  accomplishments : list Accomplishment.t
}.

(** ** Queries *)

(** The id an auto-increment column gives the next row. *)
Definition next_id (ids : list Z) : Z := 1 + fold_right Z.max 0 ids.

(** [Query.one()] *)
Definition one {A} (rows : list A) : Result A :=
  match rows with
  | [] => Raise NoResultFound
  | [x] => Ok x
  | _ => Raise MultipleResultsFound
  end.

(** [Query.one_or_none()] *)
Definition one_or_none {A} (rows : list A) : Result (option A) :=
  match rows with
  | [] => Ok None
  | [x] => Ok (Some x)
  | _ => Raise MultipleResultsFound
  end.

(** [Query.limit(n)]; [limit(None)] is no limit. *)
Definition limit {A} (n : option nat) (rows : list A) : list A :=
  match n with
  | None => rows
  | Some k => firstn k rows
  end.

(** [Query.get(key)] on the Users; a [None] key finds nothing. *)
Definition get_user (st : Store) (key : option Z) : option User.t :=
  match key with
  | None => None
  | Some k => find (fun u => User.id u =? k) (users st)
  end.

(** The Deed an Accomplishment refers to ([Accomplishment.deed]). *)
Definition deed_of (st : Store) (a : Accomplishment.t) : option Deed.t :=
  find (fun d => Deed.id d =? Accomplishment.deed_id a) (deeds st).

(** The Accomplishments completed in the window [[lo, hi)]. *)
Definition completed_within (lo hi : Datetime.t) (a : Accomplishment.t) : bool :=
  Datetime.geb (Accomplishment.completed a) lo &&
  Datetime.ltb (Accomplishment.completed a) hi.

(** [ORDER BY key] for a key computed per row: an insertion sort; rows with
    equal keys keep their scan order. *)
Fixpoint insert_by_key {A} (x : float * A) (l : list (float * A)) : list (float * A) :=
  match l with
  | [] => [x]
  | y :: l' =>
      if PrimFloat.ltb (fst y) (fst x) then y :: insert_by_key x l'
      else x :: y :: l'
  end.

Definition sort_by_key {A} (l : list (float * A)) : list (float * A) :=
  fold_right insert_by_key [] l.

(** [SELECT deed_id, count(deed_id) ... GROUP BY deed_id]: one row per
    distinct deed id. *)
Definition group_count (ids : list Z) : list (Z * Z) :=
  map (fun k => (k, Z.of_nat (count_occ Z.eq_dec ids k))) (nodup Z.eq_dec ids).

(** [sum([count for (_, count) in result])] *)
Definition sum_counts (result : list (Z * Z)) : Z :=
  fold_right (fun p acc => snd p + acc) 0 result.

(** ** Python values *)

(** Truth value of [client.current_user]: [None] and [0] are false. *)
Definition truthy (v : option Z) : bool :=
  match v with
  | None => false
  | Some n => negb (n =? 0)
  end.

(** [a is b] for two int objects that were built separately, as the values
    of two result rows are: CPython hands out the same object for equal
    values only from its cache of small ints, -5 to 256. *)
Definition is_ (a b : Z) : bool :=
  (a =? b) && (-5 <=? a) && (a <=? 256).

(** [float(n)], for the [n] a row count can be: [0 <= n < 2^63]. *)
Definition float_ (n : Z) : float := PrimFloat.of_uint63 (Uint63.of_Z n).

(** [100 * float(count) / float(total_votes)] *)
Definition percent (count total_votes : Z) : Result float :=
  if total_votes =? 0 then Raise ZeroDivisionError
  else Ok (PrimFloat.div (PrimFloat.mul (float_ 100) (float_ count))
                         (float_ total_votes)).

(** [SQL: column = value] where the value may be [None]. *)
Definition eq_value (x : Z) (v : option Z) : bool :=
  match v with
  | None => false
  | Some y => x =? y
  end.

(** ** Clients, pending broadcasts and the state of the control *)

(** Client objects are shared between the callers and the list of clients
    of the control: they live in a heap and are passed by reference. *)
Definition ClientRef : Type := nat.

(** Modelled from the spec: the class of the clients (the transport
    handler) is not among the sources.  A client has the two attributes the
    control touches: [user], which [sign_in] and [sign_out] write, and
    [current_user], the identity of the caller or [None], which the poll
    and the broadcast read. *)
Record Client : Type := mkClient {
  user : option User.view;
  current_user : option Z
}.

(** An entry of [_pending]: the tuple [(signal, message, accl)]; an [accl]
    of [None] is PUBLIC. *)
Definition Pending : Type := (string * DeedView.t * option (list Z))%type.

(** [{"signal": signal, "message": message}] *)
Record News : Type := mkNews {
  signal : string;
  message : DeedView.t
}.

(** What a body of work reaches besides its session: the pending list of
    the control and the client objects. *)
Record Visible : Type := mkVisible {
  _pending : list Pending;
  heap : ClientRef -> Client
}.

(** The state a body of work runs on: the rows as its session sees them,
    and the above. *)
Record Scope : Type := mkScope {
  rows : Store;
  self : Visible
}.

(** The calls made on a session object by the code that owns it. *)
Inductive SessionCall : Type :=
| commit
| rollback
| close.

(** The whole state: the committed rows, the clients the control
    broadcasts to, what each client was sent ([client.broadcast(news)], in
    order) and the calls made on the sessions so far. *)
Record World : Type := mkWorld {
  db : Store;
  _clients : list ClientRef;
  visible : Visible;
  outbox : list (ClientRef * News);
  calls : list SessionCall
}.

Definition set_rows (st : Store) (sc : Scope) : Scope :=
  mkScope st (self sc).

Definition set_pending (p : list Pending) (sc : Scope) : Scope :=
  mkScope (rows sc) (mkVisible p (heap (self sc))).

(** [client.user = v]: the object [client] refers to changes, for everyone
    who holds a reference to it. *)
Definition assign_user (client : ClientRef) (v : option User.view) (vis : Visible) : Visible :=
  mkVisible (_pending vis)
    (fun c => if Nat.eqb c client
              then mkClient v (current_user (heap vis c))
              else heap vis c).

Definition set_user (client : ClientRef) (v : option User.view) (sc : Scope) : Scope :=
  mkScope (rows sc) (assign_user client v (self sc)).

(** [for x in l: f(x)] *)
Fixpoint for_each {S A} (l : list A) (f : A -> SE S unit) : SE S unit :=
  match l with
  | [] => ret tt
  | x :: l' => bind (f x) (fun _ => for_each l' f)
  end.

(** [try: m / except <classes>: handler]; the state the handler starts
    from is the state at the raise. *)
Definition try_except {S A} (m : SE S A) (classes : Error -> bool)
    (handler : SE S A) : SE S A :=
  fun s =>
    match m s with
    | (Raise e, s') => if classes e then handler s' else (Raise e, s')
    | r => r
    end.

Module Control.

Local Open Scope se_scope.

(** [session], l.35-48: a new session sees the committed rows; the body
    runs; on return the session is committed, on an exception it is rolled
    back and the exception raised again; it is closed in both cases. *)
Definition session {A} (body : SE Scope A) : SE World A :=
  fun w =>
    match body (mkScope (db w) (visible w)) with
    | (Ok a, sc) =>
        (Ok a, mkWorld (rows sc) (_clients w) (self sc) (outbox w)
                       (calls w ++ [commit; close]))
    | (Raise e, sc) =>
        (Raise e, mkWorld (db w) (_clients w) (self sc) (outbox w)
                          (calls w ++ [rollback; close]))
    end.

(** The clients a piece of news goes to, l.54-56. *)
Definition audience (w : World) (accl : option (list Z)) : list ClientRef :=
  filter (fun client =>
            match accl with
            | None => true
            | Some l =>
                match current_user (heap (visible w) client) with
                | Some u => existsb (Z.eqb u) l
                | None => false
                end
            end) (_clients w).

(** [_broadcast], l.50-56 *)
Definition _broadcast (args : Pending) : SE World unit :=
  let '(signal, message, accl) := args in
  let news := mkNews signal message in
  modify (fun w =>
    mkWorld (db w) (_clients w) (visible w)
            (outbox w ++ map (fun client => (client, news)) (audience w accl))
            (calls w)).

(** [_broadcast_on_success], l.58-59 *)
Definition _broadcast_on_success (signal : string) (message : DeedView.t)
    (accl : option (list Z)) : SE Scope unit :=
  modify (fun sc => set_pending (_pending (self sc) ++ [(signal, message, accl)]) sc).

(** [_broadcast_result_], l.61-63 *)
Definition _broadcast_result_ (signal : string) (message : DeedView.t)
    (accl : option (list Z)) : SE Scope DeedView.t :=
  _broadcast_on_success signal message accl ;;;
  ret message.

(** [_flush], l.65-70.  [error] is [None] or the exception of the failed
    work. *)
Definition _flush (error : option Error) : SE World unit :=
  (match error with
   | None => pending <- gets (fun w => _pending (visible w)) ;;
             for_each pending _broadcast
   | Some _ => ret tt
   end) ;;;
  modify (fun w =>
    mkWorld (db w) (_clients w) (mkVisible [] (heap (visible w)))
            (outbox w) (calls w)).

(** [_set_user], l.72-76 *)
Definition _set_user (client : ClientRef) (user_id : Z) : SE World unit :=
  session (
    user <- gets (fun sc => get_user (rows sc) (Some user_id)) ;;
    match user with
    | None => raise AttributeError
    | Some u => modify (set_user client (Some (User.to_json u)))
    end).

(** [ping], l.78-80 *)
Definition ping (client : ClientRef) : SE World string :=
  ret "pong"%string.

(** [sign_out], l.93-94 *)
Definition sign_out (client : ClientRef) : SE World unit :=
  modify (fun w =>
    mkWorld (db w) (_clients w) (assign_user client None (visible w))
            (outbox w) (calls w)).

(** [get_deeds], l.134-137 *)
Definition get_deeds (_ : ClientRef) (limit_ : option nat) : SE World (list DeedView.t) :=
  session (
    deeds <- gets (fun sc => limit limit_ (deeds (rows sc))) ;;
    ret (map Deed.to_json deeds)).

Section Collaborators.

(** [User.authenticate] raises [ValueError] for a wrong password; whether
    a password is right is the business of the model class. *)
Variable check_password : User.t -> string -> bool.

(** The [i]-th value MySQL's [RAND(seed)] yields in one statement. *)
Variable rand : Z -> nat -> float.

Definition authenticate (u : User.t) (password : string) : Result unit :=
  if check_password u password then Ok tt else Raise ValueError.

(** [sign_in], l.82-91 *)
Definition sign_in (client : ClientRef) (email password : string) : SE World unit :=
  session (
    user <- try_except
              (user <- (fun sc => (one (filter (fun u => String.eqb (User._email u) email)
                                               (users (rows sc))), sc)) ;;
               lift (authenticate user password) ;;;
               ret user)
              (fun e => match e with
                        | NoResultFound | ValueError => true
                        | _ => false
                        end)
              (raise (Exception "Email or password incorrect")) ;;
    modify (set_user client (Some (User.to_json user)))).

(** [.order_by(func.rand(seed))]: each row gets the next value of the
    generator, in scan order, and the rows are sorted by it. *)
Definition order_by_rand {A} (seed : Z) (l : list A) : list A :=
  map snd (sort_by_key (combine (map (rand seed) (seq 0 (List.length l))) l)).

(** The Deeds the poll draws from: those created before [today_start]. *)
Definition eligible (st : Store) (today_start : Datetime.t) : list Deed.t :=
  filter (fun d => Datetime.ltb (Deed.created d) today_start) (deeds st).

(** [get_todays_deeds], l.96-132.  [now timezone] is what
    [datetime.datetime.now(tz=tz.gettz(timezone))] returns at the call. *)
Definition get_todays_deeds (now : option string -> Datetime.t)
    (client : ClientRef) (timezone : option string) : SE World (list DeedView.t) :=
  session (
    let today := now timezone in
    today_start <- lift (Datetime.datetime (Datetime.year today) (Datetime.month today)
                                           (Datetime.day today)) ;;
    midnight <- lift (Datetime.datetime (Datetime.year today) (Datetime.month today)
                                        (Datetime.day today)) ;;
    tomorrow <- lift (Datetime.add_one_day midnight) ;;
    let seed := Datetime.strftime_Ymd today in
    deeds <- gets (fun sc => firstn 2 (order_by_rand seed (eligible (rows sc) today_start))) ;;
    current <- gets (fun sc => current_user (heap (self sc) client)) ;;
    if truthy current then
      achieved <- (fun sc =>
                     (one_or_none
                        (filter (fun a => completed_within today_start tomorrow a &&
                                          eq_value (Accomplishment.user_id a) current)
                                (accomplishments (rows sc))), sc)) ;;
      match achieved with
      | Some a =>
          result <- gets (fun sc =>
                      group_count (map Accomplishment.deed_id
                                     (filter (completed_within today_start tomorrow)
                                             (accomplishments (rows sc))))) ;;
          let total_votes := sum_counts result in
          match find (fun row => is_ (Accomplishment.deed_id a) (fst row)) result with
          | Some (deed_id, count) =>
              pct <- lift (percent count total_votes) ;;
              deed <- gets (fun sc => deed_of (rows sc) a) ;;
              match deed with
              | None => raise AttributeError
              | Some d => ret [DeedView.update_percent_of_votes (Deed.to_json d) pct]
              end
          | None => ret (map Deed.to_json deeds)
          end
      | None => ret (map Deed.to_json deeds)
      end
    else ret (map Deed.to_json deeds)).

End Collaborators.

(** Modelled from the spec: the decorator [dogooder.utils.user_session] is
    not among the sources.  It runs the decorated method inside a session
    scope of the control and hands it the caller's User, looked up by the
    caller's identity, and the session; what the method returns is
    returned. *)
Definition user_session {A} (f : option User.t -> SE Scope A)
    (client : ClientRef) : SE World A :=
  session (
    user <- gets (fun sc => get_user (rows sc) (current_user (heap (self sc) client))) ;;
    f user).

(** The body of [insert_deed], l.140-144.  [now] is the clock reading the
    column default of [Deed.created] takes.  There is no [return]: the
    method returns [None]. *)
Definition insert_deed_body (now : Datetime.t) (user : option User.t)
    (description : string) : SE Scope unit :=
  id <- gets (fun sc => next_id (map Deed.id (deeds (rows sc)))) ;;
  let deed := Deed.make id description now in
  modify (fun sc => set_rows (mkStore (users (rows sc)) (deeds (rows sc) ++ [deed])
                                      (accomplishments (rows sc))) sc) ;;;
  _broadcast_on_success "insert_deed" (Deed.to_json deed) None.

Definition insert_deed (now : Datetime.t) (client : ClientRef)
    (description : string) : SE World unit :=
  user_session (fun user => insert_deed_body now user description) client.

(** The body of [accomplish_deed], l.147-167.  [utcnow] is what
    [datetime.datetime.utcnow()] returns; the column default of
    [Accomplishment.completed] is taken to read the same instant. *)
Definition accomplish_deed_body (utcnow : Datetime.t) (user : option User.t)
    (id : Z) : SE Scope unit :=
  let now := utcnow in
  today <- lift (Datetime.datetime (Datetime.year now) (Datetime.month now)
                                   (Datetime.day now)) ;;
  tomorrow <- lift (Datetime.datetime (Datetime.year now) (Datetime.month now)
                                      (Datetime.day now + 1)) ;;
  user_id <- lift (match user with
                   | Some u => Ok (User.id u)
                   | None => Raise AttributeError
                   end) ;;
  todays_deeds <- gets (fun sc =>
                    filter (fun a => (Accomplishment.user_id a =? user_id) &&
                                     completed_within today tomorrow a)
                           (accomplishments (rows sc))) ;;
  if (1 <=? List.length todays_deeds)%nat then
    raise (Exception "Deed already accomplished today")
  else
    deed <- (fun sc => (one (filter (fun d => Deed.id d =? id) (deeds (rows sc))), sc)) ;;
    new_id <- gets (fun sc => next_id (map Accomplishment.id (accomplishments (rows sc)))) ;;
    let accomplishment := Accomplishment.make new_id (Deed.id deed) user_id now in
    modify (fun sc => set_rows (mkStore (users (rows sc)) (deeds (rows sc))
                                        (accomplishments (rows sc) ++ [accomplishment])) sc) ;;;
    _broadcast_on_success "update_deed" (Deed.to_json deed) None.

Definition accomplish_deed (utcnow : Datetime.t) (client : ClientRef)
    (id : Z) : SE World unit :=
  user_session (fun user => accomplish_deed_body utcnow user id) client.

(** Modelled from the spec: the caller of a method of the control (the
    transport handler) is not among the sources.  It runs the method and
    then calls [_flush] once: without an argument when the method returned,
    with the exception when it raised; the outcome of the method is the
    outcome of the request. *)
Definition request {A} (method : SE World A) : SE World A :=
  fun w =>
    let (r, w1) := method w in
    let (_, w2) := _flush (error_of r) w1 in
    (r, w2).

End Control.

(** ** [dogooder/actions/insert_deed.py] *)
Module actions.

Local Open Scope se_scope.

(** Modelled from the spec: the function [dogooder.views.deed.detailed_deed_view]
    is not among the sources; it gives the representation of a Deed. *)
Definition detailed_deed_view (deed : Deed.t) : DeedView.t := Deed.to_json deed.

(** [insert_deed], l.5-13.

    Modelled from the spec: the context the action gets is not among the
    sources.  Its [session] is taken to be the session scope and its
    [broadcast] to put a public entry on the pending list, to be sent when
    the work has succeeded. *)
Definition insert_deed (now : Datetime.t) (description : string) : SE World DeedView.t :=
  Control.session (
    id <- gets (fun sc => next_id (map Deed.id (deeds (rows sc)))) ;;
    let deed := Deed.make id description now in
    modify (fun sc => set_rows (mkStore (users (rows sc)) (deeds (rows sc) ++ [deed])
                                        (accomplishments (rows sc))) sc) ;;;
    let result := detailed_deed_view deed in
    Control._broadcast_on_success "INSERT_DEED" result None ;;;
    ret result).

End actions.

(** * Properties *)

(** ** Notions the statements use *)

(** A computation is read-only when it hands back the state it got,
    whether it returns or raises. *)
Definition readonly {S A} (m : SE S A) : Prop := forall s, snd (m s) = s.

(** Midnight of the day of [x]. *)
Definition midnight (x : Datetime.t) : Datetime.t :=
  Datetime.make (Datetime.year x) (Datetime.month x) (Datetime.day x) 0 0 0 0.

(** [x] is the last day of its month. *)
Definition last_day_of_month (x : Datetime.t) : bool :=
  Datetime.day x =? Datetime.days_in_month (Datetime.year x) (Datetime.month x).

(** What one entry of the pending list puts in the outbox when it is
    broadcast in [w]. *)
Definition deliveries (w : World) (args : Pending) : list (ClientRef * News) :=
  let '(signal, message, accl) := args in
  map (fun client => (client, mkNews signal message)) (Control.audience w accl).

(** A unit of work that enqueues the events [evs], in that order. *)
Definition enqueue_all (evs : list Pending) : SE Scope unit :=
  for_each evs (fun args =>
    let '(signal, message, accl) := args in
    Control._broadcast_on_success signal message accl).

(** The Accomplishments completed in [[lo, hi)], by anyone. *)
Definition votes_within (st : Store) (lo hi : Datetime.t) : list Accomplishment.t :=
  filter (completed_within lo hi) (accomplishments st).

(** Those of them that are by the user [uid]. *)
Definition votes_of (st : Store) (uid : Z) (lo hi : Datetime.t) : list Accomplishment.t :=
  filter (fun a => Accomplishment.user_id a =? uid) (votes_within st lo hi).

(** How many of them are for the Deed [deed_id]. *)
Definition votes_for (st : Store) (lo hi : Datetime.t) (deed_id : Z) : Z :=
  Z.of_nat (count_occ Z.eq_dec (map Accomplishment.deed_id (votes_within st lo hi)) deed_id).

(** The emails of the stored Users that equal [email]. *)
Definition matching (st : Store) (email : string) : list User.t :=
  filter (fun u => String.eqb (User._email u) email) (users st).

(** ** Sample data *)
Module Sample.

Definition at_ (y m d h : Z) : Datetime.t := Datetime.make y m d h 0 0 0.

Definition alice : User.t := User.make 1 "alice@example.org" "correct horse".
Definition bob : User.t := User.make 2 "bob@example.org" "battery".
Definition carol : User.t := User.make 3 "carol@example.org" "staple".
Definition dave : User.t := User.make 4 "dave@example.org" "tr0ub4dor".

Definition recycle : Deed.t := Deed.make 1 "Recycle" (at_ 2016 1 4 9).
Definition donate : Deed.t := Deed.make 2 "Donate blood" (at_ 2016 1 5 9).
Definition plant : Deed.t := Deed.make 257 "Plant a tree" (at_ 2016 1 6 9).

(** Client 0 is anonymous; client [n] is the connection of user [n]. *)
Definition clients : ClientRef -> Client :=
  fun c =>
    match c with
    | O => mkClient None None
    | S _ => mkClient None (Some (Z.of_nat c))
    end.

Definition world (st : Store) : World :=
  mkWorld st [0; 1; 2]%nat (mkVisible [] clients) [] [].

Definition check_password (u : User.t) (password : string) : bool :=
  String.eqb (User.credential u) password.

(** A stand-in for the generator of the database. *)
Definition rand (seed : Z) (i : nat) : float :=
  float_ ((seed * 7 + Z.of_nat i * 13) mod 31).

Definition everyone : list User.t := [alice; bob; carol; dave].

(** Nobody has voted yet. *)
Definition fresh : Store := mkStore everyone [recycle; donate] [].

(** Only one Deed exists. *)
Definition lonely : Store := mkStore everyone [recycle] [].

(** 15 March 2016: three votes for Recycle, one for Donate blood. *)
Definition voted : Store :=
  mkStore everyone [recycle; donate]
    [Accomplishment.make 1 1 1 (at_ 2016 3 15 8);
     Accomplishment.make 2 1 2 (at_ 2016 3 15 9);
     Accomplishment.make 3 2 4 (at_ 2016 3 15 10);
     Accomplishment.make 4 1 3 (at_ 2016 3 15 11)].

(** 15 March 2016: Alice has voted for the Deed with id 257. *)
Definition voted_257 : Store :=
  mkStore everyone [recycle; donate; plant]
    [Accomplishment.make 1 257 1 (at_ 2016 3 15 8)].

(** 31 January 2016: Alice has voted for Recycle in the morning. *)
Definition voted_jan31 : Store :=
  mkStore everyone [recycle; donate]
    [Accomplishment.make 1 1 1 (at_ 2016 1 31 8)].

(** A clock that reads [x] in every timezone. *)
Definition clock (x : Datetime.t) : option string -> Datetime.t := fun _ => x.

(** A unit of work that gives the first Deed another text. *)
Definition rename_first (text : string) : SE Scope unit :=
  modify (fun sc =>
    set_rows (mkStore (users (rows sc))
                (match deeds (rows sc) with
                 | [] => []
                 | d :: l => Deed.make (Deed.id d) text (Deed.created d) :: l
                 end)
                (accomplishments (rows sc))) sc).

End Sample.

(** Two entries for the pending list: a public one and one for user 2. *)
Definition sample_events : list Pending :=
  [("insert_deed"%string, Deed.to_json Sample.recycle, None);
   ("update_deed"%string, Deed.to_json Sample.donate, Some [2])].

(** The rows after [Sample.rename_first "Reuse"] on [Sample.fresh]. *)
Definition sample_renamed : Store :=
  mkStore Sample.everyone
    [Deed.make 1 "Reuse" (Sample.at_ 2016 1 4 9); Sample.donate] [].

(** Two stored Users with the same email. *)
Definition sample_duplicates : Store :=
  mkStore [Sample.alice; User.make 5 "alice@example.org" "other"; Sample.bob]
          [Sample.recycle; Sample.donate] [].

(** 15 March 2016: two Accomplishments of Alice. *)
Definition sample_voted_twice : Store :=
  mkStore Sample.everyone [Sample.recycle; Sample.donate]
    [Accomplishment.make 1 1 1 (Sample.at_ 2016 3 15 8);
     Accomplishment.make 2 2 1 (Sample.at_ 2016 3 15 9)].
Lemma readonly_ret {S A} (a : A) : readonly (@ret S A a).
Proof. intro s. reflexivity. Qed.

Lemma readonly_raise {S A} (e : Error) : readonly (@raise S A e).
Proof. intro s. reflexivity. Qed.

Lemma readonly_lift {S A} (r : Result A) : readonly (@lift S A r).
Proof. intro s. reflexivity. Qed.

Lemma readonly_gets {S A} (f : S -> A) : readonly (gets f).
Proof. intro s. reflexivity. Qed.

Lemma readonly_query {S A} (f : S -> Result A) : readonly (fun s => (f s, s)).
Proof. intro s. reflexivity. Qed.

Lemma readonly_bind {S A B} (m : SE S A) (k : A -> SE S B) :
  readonly m -> (forall a, readonly (k a)) -> readonly (bind m k).
Proof.
  intros Hm Hk s. unfold bind.
  specialize (Hm s). destruct (m s) as [[a|e] s']; simpl in Hm; subst s'.
  - apply Hk.
  - reflexivity.
Qed.

Create HintDb readonly.
#[local] Hint Resolve readonly_ret readonly_raise readonly_lift readonly_gets
  readonly_query : readonly.

(** Splits a read-only goal along the binds and the branches of the code. *)
Ltac readonly_step :=
  match goal with
  | |- readonly (bind _ _) => apply readonly_bind; [ | intro ]
  | |- readonly (if ?b then _ else _) => destruct b
  | |- readonly (match ?x with _ => _ end) => destruct x
  | |- readonly _ => solve [ auto with readonly ]
  end.

(** What a session scope leaves of a read-only body: nothing but the
    record of its own calls. *)
Lemma session_readonly {A} (body : SE Scope A) (w : World) :
  readonly body ->
  db (snd (Control.session body w)) = db w /\
  visible (snd (Control.session body w)) = visible w /\
  outbox (snd (Control.session body w)) = outbox w /\
  _clients (snd (Control.session body w)) = _clients w.
Proof.
  intro H. unfold Control.session.
  specialize (H (mkScope (db w) (visible w))).
  destruct (body (mkScope (db w) (visible w))) as [[a|e] sc]; simpl in *; subst sc;
    simpl; auto.
Qed.

(** The outcome of a session scope is the outcome of its body. *)
Lemma session_outcome {A} (body : SE Scope A) (w : World) :
  fst (Control.session body w) = fst (body (mkScope (db w) (visible w))).
Proof.
  unfold Control.session.
  destruct (body (mkScope (db w) (visible w))) as [[a|e] sc]; reflexivity.
Qed.

(** ** The session scope *)

(** C5.  Whatever the body does: when it returns, the session is committed
    (the committed rows become the rows the body left) and then closed;
    when it raises, the session is rolled back (the committed rows stay)
    and then closed, and the same exception comes out.  In both cases the
    outcome of the scope is the outcome of the body and [close] is the last
    call. *)
Theorem session_commit_rollback_close {A} (body : SE Scope A) (w : World)
    (r : Result A) (sc : Scope) :
  body (mkScope (db w) (visible w)) = (r, sc) ->
  exists w',
    Control.session body w = (r, w') /\
    calls w' = calls w ++ [match r with Ok _ => commit | Raise _ => rollback end; close] /\
    db w' = match r with Ok _ => rows sc | Raise _ => db w end /\
    visible w' = self sc /\
    outbox w' = outbox w /\
    _clients w' = _clients w.
Proof.
  intro H. unfold Control.session. rewrite H.
  destruct r as [a|e]; eexists; split; try reflexivity; simpl; auto.
Qed.

(** ** The read operations *)

(** C9.  The poll writes nothing: after the call the committed Users, Deeds
    and Accomplishments, the pending list, the client objects and what was
    broadcast are what they were. *)
Theorem get_todays_deeds_readonly (rand : Z -> nat -> float)
    (now : option string -> Datetime.t) (client : ClientRef)
    (timezone : option string) (w : World) :
  let w' := snd (Control.get_todays_deeds rand now client timezone w) in
  users (db w') = users (db w) /\
  deeds (db w') = deeds (db w) /\
  accomplishments (db w') = accomplishments (db w) /\
  _pending (visible w') = _pending (visible w) /\
  heap (visible w') = heap (visible w) /\
  outbox w' = outbox w.
Proof.
  intro w'. subst w'. unfold Control.get_todays_deeds.
  match goal with
  | |- context [Control.session ?b w] =>
      destruct (session_readonly b w) as (Hdb & Hvis & Hout & _)
  end.
  - repeat readonly_step.
  - rewrite Hdb, Hvis, Hout. repeat split; reflexivity.
Qed.

(** C10.  Without a limit every stored Deed is returned, in scan order;
    with a limit of [n], the first [n] of them, so at most [n]; the call
    writes nothing. *)
Theorem get_deeds_limit (client : ClientRef) (limit_ : option nat) (w : World) :
  let (r, w') := Control.get_deeds client limit_ w in
  match limit_ with
  | None => r = Ok (map Deed.to_json (deeds (db w)))
  | Some n => exists l, r = Ok l /\ (List.length l <= n)%nat /\
                        l = map Deed.to_json (firstn n (deeds (db w)))
  end /\
  db w' = db w /\ visible w' = visible w /\ outbox w' = outbox w.
Proof.
  unfold Control.get_deeds, Control.session, bind, gets, ret. simpl.
  split; [ | auto ].
  destruct limit_ as [n|]; simpl; [ | reflexivity ].
  eexists; split; [ reflexivity | split; [ | reflexivity ] ].
  rewrite length_map, length_firstn. lia.
Qed.

(** ** Sign-in *)

(** C8.  When no stored User has the email, or the one that has it does not
    accept the password, [sign_in] raises the exception with the text
    "Email or password incorrect"; no client object changes, in particular
    not the [user] of the caller, and nothing is committed or broadcast. *)
Theorem sign_in_rejected (check_password : User.t -> string -> bool)
    (client : ClientRef) (email password : string) (w : World) :
  matching (db w) email = [] \/
  (exists u, matching (db w) email = [u] /\ check_password u password = false) ->
  exists w',
    Control.sign_in check_password client email password w
      = (Raise AuthenticationError, w') /\
    (forall c, user (heap (visible w') c) = user (heap (visible w) c)) /\
    visible w' = visible w /\
    db w' = db w /\
    outbox w' = outbox w.
Proof.
  unfold matching. intro H.
  unfold Control.sign_in, Control.session, bind, try_except, lift, ret, raise,
    Control.authenticate. simpl.
  destruct H as [H | (u & H & Hpw)]; rewrite H; simpl.
  - eexists; repeat split; reflexivity.
  - rewrite Hpw. simpl. eexists; repeat split; reflexivity.
Qed.

(** ** Inserting a Deed *)

(** C7, the method of the control.  For every description the Deed is
    created with that text and the next id, committed, and a public
    [insert_deed] entry with its representation is put on the pending list;
    but the method has no [return]: the caller gets [None], not the
    representation. *)
Theorem control_insert_deed_returns_none (now : Datetime.t) (client : ClientRef)
    (description : string) (w : World) :
  let deed := Deed.make (next_id (map Deed.id (deeds (db w)))) description now in
  exists w',
    Control.insert_deed now client description w = (Ok tt, w') /\
    deeds (db w') = deeds (db w) ++ [deed] /\
    users (db w') = users (db w) /\
    accomplishments (db w') = accomplishments (db w) /\
    _pending (visible w')
      = _pending (visible w) ++ [("insert_deed"%string, Deed.to_json deed, None)] /\
    outbox w' = outbox w.
Proof.
  intro deed. eexists. split; [ reflexivity | ]. simpl. repeat split; reflexivity.
Qed.

(** The action does what C7 says: the Deed is committed, the public entry
    is put on the pending list and the same representation is returned. *)
Lemma actions_insert_deed_returns_view (now : Datetime.t) (description : string)
    (w : World) :
  let deed := Deed.make (next_id (map Deed.id (deeds (db w)))) description now in
  exists w',
    actions.insert_deed now description w = (Ok (Deed.to_json deed), w') /\
    deeds (db w') = deeds (db w) ++ [deed] /\
    users (db w') = users (db w) /\
    accomplishments (db w') = accomplishments (db w) /\
    _pending (visible w')
      = _pending (visible w) ++ [("INSERT_DEED"%string, Deed.to_json deed, None)] /\
    DeedView.description (Deed.to_json deed) = description /\
    outbox w' = outbox w.
Proof.
  intro deed. eexists. split; [ reflexivity | ]. simpl. repeat split; reflexivity.
Qed.

(** ** The pending list and its flush *)

Lemma audience_frame (w1 w2 : World) (accl : option (list Z)) :
  _clients w1 = _clients w2 -> visible w1 = visible w2 ->
  Control.audience w1 accl = Control.audience w2 accl.
Proof. intros H1 H2. unfold Control.audience. rewrite H1, H2. reflexivity. Qed.

Lemma deliveries_frame (w1 w2 : World) (args : Pending) :
  _clients w1 = _clients w2 -> visible w1 = visible w2 ->
  deliveries w1 args = deliveries w2 args.
Proof.
  intros H1 H2. destruct args as [[s m] accl]. unfold deliveries.
  rewrite (audience_frame w1 w2 accl H1 H2). reflexivity.
Qed.

(** Broadcasting a list of entries sends them one after the other and
    touches nothing but the outbox. *)
Lemma for_each_broadcast (l : list Pending) (w : World) :
  for_each l Control._broadcast w
  = (Ok tt, mkWorld (db w) (_clients w) (visible w)
                    (outbox w ++ flat_map (deliveries w) l) (calls w)).
Proof.
  revert w. induction l as [|args l IH]; intro w.
  - simpl. unfold ret. rewrite app_nil_r. destruct w; reflexivity.
  - simpl. unfold bind.
    destruct args as [[s m] accl]. unfold Control._broadcast at 1, modify.
    rewrite IH. simpl. rewrite <- app_assoc.
    rewrite (flat_map_ext _ (deliveries w)) by (intro a; apply deliveries_frame; reflexivity).
    reflexivity.
Qed.

(** Entries are put at the end of the pending list, so the list is in
    enqueue order. *)
Lemma enqueue_all_appends (evs : list Pending) (sc : Scope) :
  enqueue_all evs sc = (Ok tt, set_pending (_pending (self sc) ++ evs) sc).
Proof.
  unfold enqueue_all. revert sc. induction evs as [|args evs IH]; intro sc.
  - simpl. unfold ret, set_pending. rewrite app_nil_r.
    destruct sc as [st [p h]]; reflexivity.
  - simpl. unfold bind. destruct args as [[s m] accl].
    unfold Control._broadcast_on_success at 1, modify. rewrite IH.
    unfold set_pending. simpl. rewrite <- app_assoc. reflexivity.
Qed.

(** [_flush()] after work that returned: every entry of the pending list
    is broadcast, in the order of the list, and the list is emptied. *)
Lemma flush_success (w : World) :
  Control._flush None w
  = (Ok tt, mkWorld (db w) (_clients w) (mkVisible [] (heap (visible w)))
                    (outbox w ++ flat_map (deliveries w) (_pending (visible w)))
                    (calls w)).
Proof.
  unfold Control._flush, bind, gets, modify. rewrite for_each_broadcast. reflexivity.
Qed.

(** [_flush(error)] after work that raised: the list is emptied and
    nothing is broadcast. *)
Lemma flush_failure (e : Error) (w : World) :
  Control._flush (Some e) w
  = (Ok tt, mkWorld (db w) (_clients w) (mkVisible [] (heap (visible w)))
                    (outbox w) (calls w)).
Proof. reflexivity. Qed.

(** C4.  A unit of work that does [work], then enqueues the events [evs]
    and then returns or raises as [outcome] says, followed by the one
    [_flush] of its caller.  When it returned, its rows are committed and
    everything on the pending list, the events [evs] last and in their
    order, is broadcast, in that order.  When it raised, nothing is
    broadcast and nothing is committed.  In both cases the pending list is
    empty afterwards. *)
Theorem flush_after_scope {A} (work : SE Scope unit) (evs : list Pending)
    (outcome : Result A) (w : World) (sc : Scope) :
  work (mkScope (db w) (visible w)) = (Ok tt, sc) ->
  exists w',
    Control.request
      (Control.session (bind work (fun _ => bind (enqueue_all evs) (fun _ => lift outcome)))) w
      = (outcome, w') /\
    _pending (visible w') = [] /\
    match outcome with
    | Ok _ =>
        db w' = rows sc /\
        outbox w' = outbox w ++ flat_map (deliveries w') (_pending (self sc) ++ evs)
    | Raise _ =>
        db w' = db w /\
        outbox w' = outbox w
    end.
Proof.
  intro H.
  unfold Control.request, Control.session, bind at 1. rewrite H.
  unfold bind at 1. rewrite enqueue_all_appends. unfold lift.
  destruct outcome as [a|e]; simpl.
  - unfold Control._flush, bind, gets. simpl. rewrite for_each_broadcast. simpl.
    eexists. split; [ reflexivity | ]. simpl. repeat split.
  - eexists. split; [ reflexivity | ]. simpl. repeat split.
Qed.

(** ** Dates *)

Ltac bools :=
  repeat match goal with
  | H : _ && _ = true |- _ => apply andb_true_iff in H; destruct H
  | H : (_ <=? _) = true |- _ => apply Z.leb_le in H
  | H : (_ <? _) = true |- _ => apply Z.ltb_lt in H
  | H : (_ =? _) = true |- _ => apply Z.eqb_eq in H
  | H : (_ =? _) = false |- _ => apply Z.eqb_neq in H
  | H : (_ <? _) = false |- _ => apply Z.ltb_ge in H
  | H : (_ <=? _) = false |- _ => apply Z.leb_gt in H
  end.

Lemma valid_date_of_valid (x : Datetime.t) :
  Datetime.valid x = true ->
  Datetime.valid_date (Datetime.year x) (Datetime.month x) (Datetime.day x) = true.
Proof. unfold Datetime.valid. intro H. bools. assumption. Qed.

(** [datetime(x.year, x.month, x.day)] is midnight of the day of [x]. *)
Lemma datetime_of_valid (x : Datetime.t) :
  Datetime.valid x = true ->
  Datetime.datetime (Datetime.year x) (Datetime.month x) (Datetime.day x)
  = Ok (midnight x).
Proof.
  intro H. unfold Datetime.datetime. rewrite (valid_date_of_valid x H). reflexivity.
Qed.

(** [datetime(x.year, x.month, x.day + 1)] on a day that is not the last of
    its month. *)
Lemma datetime_day_plus_one (x : Datetime.t) :
  Datetime.valid x = true -> last_day_of_month x = false ->
  Datetime.datetime (Datetime.year x) (Datetime.month x) (Datetime.day x + 1)
  = Ok (Datetime.make (Datetime.year x) (Datetime.month x) (Datetime.day x + 1) 0 0 0 0).
Proof.
  intros H L. apply valid_date_of_valid in H.
  unfold Datetime.datetime, Datetime.valid_date, last_day_of_month in *. bools.
  replace (Datetime.MINYEAR <=? Datetime.year x) with true by (symmetry; apply Z.leb_le; lia).
  replace (Datetime.year x <=? Datetime.MAXYEAR) with true by (symmetry; apply Z.leb_le; lia).
  replace (1 <=? Datetime.month x) with true by (symmetry; apply Z.leb_le; lia).
  replace (Datetime.month x <=? 12) with true by (symmetry; apply Z.leb_le; lia).
  replace (1 <=? Datetime.day x + 1) with true by (symmetry; apply Z.leb_le; lia).
  replace (Datetime.day x + 1 <=? Datetime.days_in_month (Datetime.year x) (Datetime.month x))
    with true by (symmetry; apply Z.leb_le; lia).
  reflexivity.
Qed.

(** ... and on the last day of a month. *)
Lemma datetime_day_plus_one_last (x : Datetime.t) :
  last_day_of_month x = true ->
  Datetime.datetime (Datetime.year x) (Datetime.month x) (Datetime.day x + 1)
  = Raise ValueError.
Proof.
  intro L. unfold Datetime.datetime, Datetime.valid_date, last_day_of_month in *. bools.
  replace (Datetime.day x + 1 <=? Datetime.days_in_month (Datetime.year x) (Datetime.month x))
    with false by (symmetry; apply Z.leb_gt; lia).
  rewrite andb_false_r. reflexivity.
Qed.

(** On a day that is not the last of its month, the day after by the
    constructor is the day after by [timedelta]. *)
Lemma day_plus_one_is_add_one_day (x : Datetime.t) :
  last_day_of_month x = false ->
  Datetime.valid x = true ->
  Datetime.add_one_day (midnight x)
  = Ok (Datetime.make (Datetime.year x) (Datetime.month x) (Datetime.day x + 1) 0 0 0 0).
Proof.
  intros L H. apply valid_date_of_valid in H.
  unfold Datetime.add_one_day, midnight, Datetime.valid_date, last_day_of_month in *.
  simpl. bools.
  replace (Datetime.day x <? Datetime.days_in_month (Datetime.year x) (Datetime.month x))
    with true by (symmetry; apply Z.ltb_lt; lia).
  reflexivity.
Qed.

Lemma compare_Lt_of_lt (a b : Z) : a < b -> (a ?= b) = Lt.
Proof. apply Z.compare_lt_iff. Qed.

(** An instant is not before the midnight of its day. *)
Lemma geb_midnight (x : Datetime.t) :
  Datetime.valid x = true -> Datetime.geb x (midnight x) = true.
Proof.
  unfold Datetime.valid. intro H. bools.
  unfold Datetime.geb, Datetime.ltb, Datetime.compare, midnight. simpl.
  rewrite !Z.compare_refl. simpl.
  destruct (Z.compare_spec (Datetime.hour x) 0); simpl; try reflexivity; try lia.
  destruct (Z.compare_spec (Datetime.minute x) 0); simpl; try reflexivity; try lia.
  destruct (Z.compare_spec (Datetime.second x) 0); simpl; try reflexivity; try lia.
  destruct (Z.compare_spec (Datetime.microsecond x) 0); simpl; try reflexivity; lia.
Qed.

(** An instant is before the midnight that follows its day. *)
Lemma ltb_day_plus_one (x : Datetime.t) :
  Datetime.ltb x
    (Datetime.make (Datetime.year x) (Datetime.month x) (Datetime.day x + 1) 0 0 0 0)
  = true.
Proof.
  unfold Datetime.ltb, Datetime.compare. simpl.
  rewrite !Z.compare_refl. simpl.
  rewrite (compare_Lt_of_lt (Datetime.day x) (Datetime.day x + 1)) by lia.
  reflexivity.
Qed.

Lemma ltb_add_one_day (x t : Datetime.t) :
  Datetime.add_one_day (midnight x) = Ok t -> Datetime.ltb x t = true.
Proof.
  unfold Datetime.add_one_day, midnight. simpl.
  destruct (Datetime.day x <? _).
  - intro E. inversion E. apply ltb_day_plus_one.
  - destruct (Datetime.month x <? 12).
    + intro E. inversion E. unfold Datetime.ltb, Datetime.compare. simpl.
      rewrite Z.compare_refl. simpl.
      rewrite (compare_Lt_of_lt (Datetime.month x) (Datetime.month x + 1)) by lia.
      reflexivity.
    + destruct (Datetime.year x <? Datetime.MAXYEAR); intro E; inversion E.
      unfold Datetime.ltb, Datetime.compare. simpl.
      rewrite (compare_Lt_of_lt (Datetime.year x) (Datetime.year x + 1)) by lia.
      reflexivity.
Qed.

(** Two instants of the same day have the same midnight. *)
Lemma midnight_same_day (x y : Datetime.t) :
  Datetime.year x = Datetime.year y -> Datetime.month x = Datetime.month y ->
  Datetime.day x = Datetime.day y -> midnight x = midnight y.
Proof. unfold midnight. intros -> -> ->. reflexivity. Qed.

(** ** Accomplishing a Deed *)

Lemma filter_filter_and {A} (f g : A -> bool) (l : list A) :
  filter f (filter g l) = filter (fun x => f x && g x) l.
Proof.
  induction l as [|x l IH]; simpl; [ reflexivity | ].
  destruct (g x); simpl; rewrite ?andb_true_r, ?andb_false_r.
  - destruct (f x); rewrite IH; reflexivity.
  - exact IH.
Qed.

Ltac unfold_accomplish :=
  unfold Control.accomplish_deed, Control.user_session, Control.session,
    Control.accomplish_deed_body, Control._broadcast_on_success,
    bind, gets, lift, raise, modify, ret; simpl.

(** What a call that returns has done. *)
Lemma accomplish_deed_ok_inv (utcnow : Datetime.t) (client : ClientRef) (id : Z)
    (w w1 : World) :
  Control.accomplish_deed utcnow client id w = (Ok tt, w1) ->
  exists today tomorrow u deed,
    Datetime.datetime (Datetime.year utcnow) (Datetime.month utcnow)
                      (Datetime.day utcnow) = Ok today /\
    Datetime.datetime (Datetime.year utcnow) (Datetime.month utcnow)
                      (Datetime.day utcnow + 1) = Ok tomorrow /\
    get_user (db w) (current_user (heap (visible w) client)) = Some u /\
    filter (fun a => (Accomplishment.user_id a =? User.id u) &&
                     completed_within today tomorrow a)
           (accomplishments (db w)) = [] /\
    one (filter (fun d => Deed.id d =? id) (deeds (db w))) = Ok deed /\
    db w1 = mkStore (users (db w)) (deeds (db w))
              (accomplishments (db w) ++
               [Accomplishment.make (next_id (map Accomplishment.id (accomplishments (db w))))
                                    (Deed.id deed) (User.id u) utcnow]) /\
    visible w1 = mkVisible (_pending (visible w) ++
                            [("update_deed"%string, Deed.to_json deed, None)])
                           (heap (visible w)) /\
    outbox w1 = outbox w.
Proof.
  unfold_accomplish.
  destruct (Datetime.datetime _ _ (Datetime.day utcnow)) as [today|] eqn:Etoday;
    [ | discriminate ].
  destruct (Datetime.datetime _ _ (Datetime.day utcnow + 1)) as [tomorrow|] eqn:Etomorrow;
    [ | discriminate ].
  destruct (get_user _ _) as [u|] eqn:Eu; [ | discriminate ].
  destruct (filter _ (accomplishments (db w))) as [|a l] eqn:Evotes; simpl;
    [ | discriminate ].
  destruct (one _) as [deed|] eqn:Edeed; [ | discriminate ].
  intro E. inversion E; subst w1; clear E. simpl.
  exists today, tomorrow, u, deed. repeat split; assumption || reflexivity.
Qed.

(** The call of a user who has an Accomplishment in today's window, on a
    day that is not the last of its month: the exception with the text
    "Deed already accomplished today", and nothing written. *)
Lemma accomplish_deed_already_accomplished (utcnow tomorrow : Datetime.t)
    (client : ClientRef) (id : Z) (w : World) (u : User.t) :
  Datetime.valid utcnow = true ->
  last_day_of_month utcnow = false ->
  Datetime.add_one_day (midnight utcnow) = Ok tomorrow ->
  get_user (db w) (current_user (heap (visible w) client)) = Some u ->
  votes_of (db w) (User.id u) (midnight utcnow) tomorrow <> [] ->
  exists w',
    Control.accomplish_deed utcnow client id w = (Raise AlreadyAccomplishedError, w') /\
    db w' = db w /\ visible w' = visible w /\ outbox w' = outbox w.
Proof.
  intros Hv Hl Ht Hu Hvotes.
  rewrite (day_plus_one_is_add_one_day utcnow Hl Hv) in Ht. inversion Ht; subst tomorrow.
  unfold_accomplish.
  rewrite (datetime_of_valid utcnow Hv), (datetime_day_plus_one utcnow Hv Hl), Hu.
  unfold votes_of, votes_within in Hvotes. rewrite filter_filter_and in Hvotes.
  destruct (filter _ (accomplishments (db w))) as [|a l]; [ contradiction | ].
  simpl. eexists. repeat split.
Qed.

(** The call on the last day of a month: [ValueError], whoever calls and
    whatever is stored, and nothing written. *)
Lemma accomplish_deed_last_day_of_month (utcnow : Datetime.t) (client : ClientRef)
    (id : Z) (w : World) :
  Datetime.valid utcnow = true ->
  last_day_of_month utcnow = true ->
  exists w',
    Control.accomplish_deed utcnow client id w = (Raise ValueError, w') /\
    db w' = db w /\ visible w' = visible w /\ outbox w' = outbox w.
Proof.
  intros Hv Hl. unfold_accomplish.
  rewrite (datetime_of_valid utcnow Hv), (datetime_day_plus_one_last utcnow Hl).
  eexists. repeat split.
Qed.

(** On any other day the window the call computes is the day: from its
    midnight to the midnight that follows. *)
Lemma accomplish_deed_window (utcnow : Datetime.t) :
  Datetime.valid utcnow = true ->
  last_day_of_month utcnow = false ->
  Datetime.datetime (Datetime.year utcnow) (Datetime.month utcnow) (Datetime.day utcnow)
    = Ok (midnight utcnow) /\
  Datetime.datetime (Datetime.year utcnow) (Datetime.month utcnow) (Datetime.day utcnow + 1)
    = Datetime.add_one_day (midnight utcnow).
Proof.
  intros Hv Hl. split.
  - apply datetime_of_valid, Hv.
  - rewrite (day_plus_one_is_add_one_day utcnow Hl Hv). apply datetime_day_plus_one; assumption.
Qed.

(** Two calls of the same client on the same day, not the last of its
    month: when the first returns, the second raises the exception with the
    text "Deed already accomplished today" and writes nothing, and the user
    has one Accomplishment that day. *)
Lemma accomplish_deed_twice (first second tomorrow : Datetime.t) (client : ClientRef)
    (id1 id2 : Z) (w w1 : World) :
  Datetime.valid first = true ->
  Datetime.valid second = true ->
  midnight second = midnight first ->
  Datetime.add_one_day (midnight first) = Ok tomorrow ->
  Control.accomplish_deed first client id1 w = (Ok tt, w1) ->
  exists w2 u,
    Control.accomplish_deed second client id2 w1 = (Raise AlreadyAccomplishedError, w2) /\
    db w2 = db w1 /\
    get_user (db w1) (current_user (heap (visible w1) client)) = Some u /\
    List.length (votes_of (db w2) (User.id u) (midnight first) tomorrow) = 1%nat.
Proof.
  intros Hv1 Hv2 Hday Ht H1.
  destruct (accomplish_deed_ok_inv _ _ _ _ _ H1)
    as (today & tmr & u & deed & Etoday & Etmr & Eu & Enone & _ & Edb & Evis & _).
  destruct (last_day_of_month first) eqn:Hl.
  { rewrite (datetime_day_plus_one_last first Hl) in Etmr. discriminate. }
  rewrite (datetime_of_valid first Hv1) in Etoday. inversion Etoday; subst today.
  rewrite (datetime_day_plus_one first Hv1 Hl) in Etmr. inversion Etmr; subst tmr.
  pose proof Ht as Ht'.
  rewrite (day_plus_one_is_add_one_day first Hl Hv1) in Ht'. inversion Ht'; subst tomorrow.
  assert (Hl2 : last_day_of_month second = false).
  { unfold last_day_of_month, midnight in *. inversion Hday as [[Hy Hm Hd]].
    rewrite Hy, Hm, Hd. exact Hl. }
  assert (Eu1 : get_user (db w1) (current_user (heap (visible w1) client)) = Some u).
  { rewrite Edb, Evis. exact Eu. }
  assert (Hvotes : votes_of (db w1) (User.id u) (midnight first)
                     (Datetime.make (Datetime.year first) (Datetime.month first)
                                    (Datetime.day first + 1) 0 0 0 0)
                   = [Accomplishment.make
                        (next_id (map Accomplishment.id (accomplishments (db w))))
                        (Deed.id deed) (User.id u) first]).
  { unfold votes_of, votes_within. rewrite filter_filter_and, Edb. simpl.
    rewrite filter_app, Enone. simpl.
    rewrite Z.eqb_refl. unfold completed_within. simpl.
    rewrite (geb_midnight first Hv1), (ltb_day_plus_one first). reflexivity. }
  destruct (accomplish_deed_already_accomplished second
              (Datetime.make (Datetime.year first) (Datetime.month first)
                             (Datetime.day first + 1) 0 0 0 0)
              client id2 w1 u Hv2 Hl2) as (w2 & E2 & Edb2 & _).
  - rewrite Hday. exact Ht.
  - exact Eu1.
  - rewrite Hday, Hvotes. discriminate.
  - exists w2, u. repeat split; try assumption.
    rewrite Edb2, Hvotes. reflexivity.
Qed.

(** ** The daily poll *)

Lemma insert_by_key_perm {A} (x : float * A) (l : list (float * A)) :
  Permutation (insert_by_key x l) (x :: l).
Proof.
  induction l as [|y l IH]; simpl; [ apply Permutation_refl | ].
  destruct (PrimFloat.ltb (fst y) (fst x)).
  - apply perm_trans with (y :: x :: l); [ apply perm_skip, IH | apply perm_swap ].
  - apply Permutation_refl.
Qed.

Lemma sort_by_key_perm {A} (l : list (float * A)) : Permutation (sort_by_key l) l.
Proof.
  induction l as [|x l IH]; simpl; [ apply perm_nil | ].
  apply perm_trans with (x :: sort_by_key l);
    [ apply insert_by_key_perm | apply perm_skip, IH ].
Qed.

Lemma map_snd_combine {A B} (ks : list A) (l : list B) :
  List.length ks = List.length l -> map snd (combine ks l) = l.
Proof.
  revert l. induction ks as [|k ks IH]; intros [|x l] H; simpl in *;
    try discriminate; [ reflexivity | ].
  f_equal. apply IH. lia.
Qed.

(** The shuffle keeps the rows: it only reorders them. *)
Lemma order_by_rand_perm {A} (rand : Z -> nat -> float) (seed : Z) (l : list A) :
  Permutation (Control.order_by_rand rand seed l) l.
Proof.
  unfold Control.order_by_rand.
  apply perm_trans with (map snd (combine (map (rand seed) (seq 0 (List.length l))) l)).
  - apply Permutation_map, sort_by_key_perm.
  - rewrite map_snd_combine; [ apply Permutation_refl | ].
    rewrite length_map, length_seq. reflexivity.
Qed.

Ltac unfold_poll :=
  unfold Control.get_todays_deeds, Control.session, bind, gets, lift, raise, ret; simpl.

(** The poll of a caller without a [current_user]: the first two of the
    shuffled eligible Deeds; the call commits nothing new. *)
Lemma get_todays_deeds_anonymous (rand : Z -> nat -> float)
    (now : option string -> Datetime.t) (client : ClientRef)
    (timezone : option string) (w : World) (tomorrow : Datetime.t) :
  Datetime.valid (now timezone) = true ->
  Datetime.add_one_day (midnight (now timezone)) = Ok tomorrow ->
  truthy (current_user (heap (visible w) client)) = false ->
  fst (Control.get_todays_deeds rand now client timezone w)
  = Ok (map Deed.to_json
          (firstn 2 (Control.order_by_rand rand (Datetime.strftime_Ymd (now timezone))
                       (Control.eligible (db w) (midnight (now timezone)))))).
Proof.
  intros Hv Ht Hc. unfold_poll.
  rewrite (datetime_of_valid _ Hv). rewrite Ht. rewrite Hc. reflexivity.
Qed.

Lemma strftime_Ymd_same_day (x y : Datetime.t) :
  midnight x = midnight y -> Datetime.strftime_Ymd x = Datetime.strftime_Ymd y.
Proof.
  unfold midnight, Datetime.strftime_Ymd. intro H. inversion H as [[Hy Hm Hd]].
  rewrite Hy, Hm, Hd. reflexivity.
Qed.

(** A Deed inserted today is not eligible today: inserting it leaves the
    Deeds the poll draws from as they were. *)
Lemma eligible_after_insert_deed (now today : Datetime.t) (client : ClientRef)
    (description : string) (w : World) :
  Datetime.valid now = true ->
  midnight now = midnight today ->
  Control.eligible (db (snd (Control.insert_deed now client description w))) (midnight today)
  = Control.eligible (db w) (midnight today).
Proof.
  intros Hv Hday. simpl. unfold Control.eligible. simpl.
  rewrite filter_app. simpl.
  pose proof (geb_midnight now Hv) as H. unfold Datetime.geb in H.
  rewrite Hday in H. apply negb_true_iff in H. rewrite H. apply app_nil_r.
Qed.

(** C3, for any number of Deeds.  Two polls on the same calendar day by callers without
    a [current_user], at any two instants of that day, in any two states of
    the control that have the same Deeds created before that day: both get
    the same sequence, the first two of those Deeds as shuffled with the
    date as the seed.  It has two elements when there are two such Deeds
    or more, and as many as there are otherwise. *)
Theorem get_todays_deeds_same_day (rand : Z -> nat -> float)
    (now1 now2 : option string -> Datetime.t) (client1 client2 : ClientRef)
    (tz1 tz2 : option string) (w1 w2 : World) (tomorrow : Datetime.t) :
  Datetime.valid (now1 tz1) = true ->
  Datetime.valid (now2 tz2) = true ->
  midnight (now2 tz2) = midnight (now1 tz1) ->
  Datetime.add_one_day (midnight (now1 tz1)) = Ok tomorrow ->
  truthy (current_user (heap (visible w1) client1)) = false ->
  truthy (current_user (heap (visible w2) client2)) = false ->
  Control.eligible (db w2) (midnight (now1 tz1))
  = Control.eligible (db w1) (midnight (now1 tz1)) ->
  exists shuffled,
    Permutation shuffled (Control.eligible (db w1) (midnight (now1 tz1))) /\
    shuffled = Control.order_by_rand rand (Datetime.strftime_Ymd (now1 tz1))
                 (Control.eligible (db w1) (midnight (now1 tz1))) /\
    fst (Control.get_todays_deeds rand now1 client1 tz1 w1)
      = Ok (map Deed.to_json (firstn 2 shuffled)) /\
    fst (Control.get_todays_deeds rand now2 client2 tz2 w2)
      = Ok (map Deed.to_json (firstn 2 shuffled)) /\
    List.length (map Deed.to_json (firstn 2 shuffled))
      = Nat.min 2 (List.length (Control.eligible (db w1) (midnight (now1 tz1)))).
Proof.
  intros Hv1 Hv2 Hday Ht Hc1 Hc2 Hel.
  eexists. split; [ apply (order_by_rand_perm rand) | ].
  split; [ reflexivity | ]. split; [ | split ].
  - apply (get_todays_deeds_anonymous rand now1 client1 tz1 w1 tomorrow); assumption.
  - rewrite (get_todays_deeds_anonymous rand now2 client2 tz2 w2 tomorrow);
      [ | assumption | rewrite Hday; assumption | assumption ].
    rewrite Hday, Hel, (strftime_Ymd_same_day _ _ Hday). reflexivity.
  - rewrite length_map, length_firstn.
    rewrite (Permutation_length (order_by_rand_perm rand _ _)). reflexivity.
Qed.

(** ** The poll of a caller who has voted *)

(** The sum of [f] over the keys [ks]. *)
Lemma sum_counts_map (f : Z -> Z) (ks : list Z) :
  sum_counts (map (fun k => (k, f k)) ks) = fold_right (fun k acc => f k + acc) 0 ks.
Proof. induction ks as [|k ks IH]; simpl; [ reflexivity | rewrite IH; reflexivity ]. Qed.

Lemma sum_indicator (a : Z) (ks : list Z) :
  NoDup ks ->
  fold_right (fun k acc => (if Z.eq_dec a k then 1 else 0) + acc) 0 ks
  = if in_dec Z.eq_dec a ks then 1 else 0.
Proof.
  induction 1 as [|k ks Hk Hnd IH]; simpl; [ reflexivity | ].
  rewrite IH.
  destruct (Z.eq_dec k a) as [->|Hne].
  - destruct (Z.eq_dec a a); [ | contradiction ].
    destruct (in_dec Z.eq_dec a ks); [ contradiction | reflexivity ].
  - destruct (Z.eq_dec a k); [ congruence | ].
    destruct (in_dec Z.eq_dec a ks); reflexivity.
Qed.

Lemma sum_count_occ (ids ks : list Z) :
  NoDup ks -> incl ids ks ->
  fold_right (fun k acc => Z.of_nat (count_occ Z.eq_dec ids k) + acc) 0 ks
  = Z.of_nat (List.length ids).
Proof.
  intro Hnd. induction ids as [|a ids IH]; intro Hincl.
  - simpl. induction ks as [|k ks IHk]; simpl; [ reflexivity | ].
    inversion Hnd; subst. rewrite IHk; [ reflexivity | assumption | apply incl_nil_l ].
  - assert (Hsplit : forall l,
      fold_right (fun k acc => Z.of_nat (count_occ Z.eq_dec (a :: ids) k) + acc) 0 l
      = fold_right (fun k acc => (if Z.eq_dec a k then 1 else 0) + acc) 0 l
        + fold_right (fun k acc => Z.of_nat (count_occ Z.eq_dec ids k) + acc) 0 l).
    { induction l as [|k l IHl]; simpl; [ reflexivity | ].
      simpl in IHl. rewrite IHl. destruct (Z.eq_dec a k); lia. }
    rewrite Hsplit, (sum_indicator a ks Hnd), IH.
    + destruct (in_dec Z.eq_dec a ks) as [_|Hn].
      * simpl List.length. lia.
      * exfalso. apply Hn, Hincl. left. reflexivity.
    + intros x Hx. apply Hincl. right. exact Hx.
Qed.

(** The counts of the groups add up to the number of rows grouped. *)
Lemma sum_counts_group_count (ids : list Z) :
  sum_counts (group_count ids) = Z.of_nat (List.length ids).
Proof.
  unfold group_count.
  rewrite (sum_counts_map (fun k => Z.of_nat (count_occ Z.eq_dec ids k))).
  apply sum_count_occ.
  - apply NoDup_nodup.
  - intros x Hx. apply nodup_In. exact Hx.
Qed.

(** The loop over the groups finds the row of a deed id that is in
    CPython's cache of small ints and among the grouped ids ... *)
Lemma find_is_cached (x : Z) (f : Z -> Z) (ks : list Z) :
  -5 <= x <= 256 -> In x ks ->
  find (fun row => is_ x (fst row)) (map (fun k => (k, f k)) ks) = Some (x, f x).
Proof.
  intros Hx. induction ks as [|k ks IH]; intro Hin; [ contradiction | ].
  simpl. unfold is_ at 1.
  destruct (Z.eqb_spec x k) as [->|Hne].
  - replace (-5 <=? k) with true by (symmetry; apply Z.leb_le; lia).
    replace (k <=? 256) with true by (symmetry; apply Z.leb_le; lia).
    reflexivity.
  - simpl. apply IH. destruct Hin as [E|Hin]; [ congruence | exact Hin ].
Qed.

(** ... and no row at all for a larger one. *)
Lemma find_is_uncached (x : Z) (rows : list (Z * Z)) :
  256 < x -> find (fun row => is_ x (fst row)) rows = None.
Proof.
  intro Hx. induction rows as [|r rows IH]; simpl; [ reflexivity | ].
  unfold is_ at 1.
  replace (x <=? 256) with false by (symmetry; apply Z.leb_gt; lia).
  rewrite andb_false_r. exact IH.
Qed.

(** The poll of a caller who has one Accomplishment in today's window, for
    a Deed whose id is in the small-int cache: the voted Deed alone, with
    [100 * float(votes for it today) / float(votes today)]. *)
Lemma get_todays_deeds_voted (rand : Z -> nat -> float)
    (now : option string -> Datetime.t) (client : ClientRef)
    (timezone : option string) (w : World) (tomorrow : Datetime.t)
    (uid : Z) (a : Accomplishment.t) (d : Deed.t) :
  Datetime.valid (now timezone) = true ->
  Datetime.add_one_day (midnight (now timezone)) = Ok tomorrow ->
  current_user (heap (visible w) client) = Some uid ->
  uid <> 0 ->
  votes_of (db w) uid (midnight (now timezone)) tomorrow = [a] ->
  -5 <= Accomplishment.deed_id a <= 256 ->
  deed_of (db w) a = Some d ->
  exists pct,
    percent (votes_for (db w) (midnight (now timezone)) tomorrow (Accomplishment.deed_id a))
            (Z.of_nat (List.length (votes_within (db w) (midnight (now timezone)) tomorrow)))
      = Ok pct /\
    fst (Control.get_todays_deeds rand now client timezone w)
      = Ok [DeedView.update_percent_of_votes (Deed.to_json d) pct].
Proof.
  intros Hv Ht Hc Hu Hvotes Hid Hd.
  unfold votes_of, votes_for, votes_within in *.
  set (within := filter (completed_within (midnight (now timezone)) tomorrow) (accomplishments (db w))) in *.
  assert (Hin : In a within).
  { assert (H : In a [a]) by (left; reflexivity).
    rewrite <- Hvotes in H. apply filter_In in H. apply H. }
  assert (Hpos : (Z.of_nat (List.length within) =? 0) = false).
  { apply Z.eqb_neq. destruct within; [ contradiction | simpl List.length; lia ]. }
  unfold percent at 1. rewrite Hpos.
  eexists. split; [ reflexivity | ].
  unfold_poll.
  rewrite (datetime_of_valid _ Hv), Ht, Hc. simpl.
  replace (negb (uid =? 0)) with true
    by (symmetry; apply negb_true_iff, Z.eqb_neq; exact Hu).
  rewrite (filter_ext _ (fun x => (Accomplishment.user_id x =? uid) &&
                                  completed_within (midnight (now timezone)) tomorrow x))
    by (intro x; apply andb_comm).
  rewrite <- filter_filter_and.
  cbn [rows self]. fold within. rewrite Hvotes. simpl.
  fold within. unfold group_count at 1.
  rewrite (find_is_cached (Accomplishment.deed_id a)
             (fun k => Z.of_nat (count_occ Z.eq_dec (map Accomplishment.deed_id within) k)))
    by (try assumption; apply nodup_In, in_map, Hin).
  rewrite sum_counts_group_count, length_map.
  unfold percent. rewrite Hpos.
  simpl. rewrite Hd. reflexivity.
Qed.

(** The same caller when the id of the voted Deed is above 256: the loop
    over the groups matches no row, and the caller gets the candidates of
    the day, without a percentage. *)
Lemma get_todays_deeds_voted_large_id (rand : Z -> nat -> float)
    (now : option string -> Datetime.t) (client : ClientRef)
    (timezone : option string) (w : World) (tomorrow : Datetime.t)
    (uid : Z) (a : Accomplishment.t) :
  Datetime.valid (now timezone) = true ->
  Datetime.add_one_day (midnight (now timezone)) = Ok tomorrow ->
  current_user (heap (visible w) client) = Some uid ->
  uid <> 0 ->
  votes_of (db w) uid (midnight (now timezone)) tomorrow = [a] ->
  256 < Accomplishment.deed_id a ->
  fst (Control.get_todays_deeds rand now client timezone w)
  = Ok (map Deed.to_json
          (firstn 2 (Control.order_by_rand rand (Datetime.strftime_Ymd (now timezone))
                       (Control.eligible (db w) (midnight (now timezone)))))).
Proof.
  intros Hv Ht Hc Hu Hvotes Hid.
  unfold votes_of, votes_within in Hvotes.
  unfold_poll.
  rewrite (datetime_of_valid _ Hv), Ht, Hc. simpl.
  replace (negb (uid =? 0)) with true
    by (symmetry; apply negb_true_iff, Z.eqb_neq; exact Hu).
  rewrite (filter_ext _ (fun x => (Accomplishment.user_id x =? uid) &&
                                  completed_within (midnight (now timezone)) tomorrow x))
    by (intro x; apply andb_comm).
  rewrite <- filter_filter_and. cbn [rows self]. rewrite Hvotes. simpl.
  rewrite (find_is_uncached _ _ Hid). reflexivity.
Qed.

(** The example of the spec: three votes for one Deed and one for another
    today; who voted for the first sees 75.0, who voted for the second
    25.0. *)
Lemma get_todays_deeds_percent_example :
  fst (Control.get_todays_deeds Sample.rand (Sample.clock (Sample.at_ 2016 3 15 12))
         1%nat None (Sample.world Sample.voted))
  = Ok [DeedView.update_percent_of_votes (Deed.to_json Sample.recycle) 75%float] /\
  fst (Control.get_todays_deeds Sample.rand (Sample.clock (Sample.at_ 2016 3 15 12))
         4%nat None (Sample.world Sample.voted))
  = Ok [DeedView.update_percent_of_votes (Deed.to_json Sample.donate) 25%float].
Proof. split; vm_compute; reflexivity. Qed.

(** * Where the code departs from its specification *)

(** C6.  On the last day of a month [accomplish_deed] does not get to its
    window: [datetime(now.year, now.month, now.day + 1)] raises
    [ValueError], for every caller and every Deed, and nothing is
    written. *)
Theorem accomplish_deed_window_fails_at_month_end (utcnow : Datetime.t)
    (client : ClientRef) (id : Z) (w : World) :
  Datetime.valid utcnow = true ->
  last_day_of_month utcnow = true ->
  Datetime.datetime (Datetime.year utcnow) (Datetime.month utcnow)
                    (Datetime.day utcnow + 1) = Raise ValueError /\
  exists w',
    Control.accomplish_deed utcnow client id w = (Raise ValueError, w') /\
    db w' = db w /\ visible w' = visible w /\ outbox w' = outbox w.
Proof.
  intros Hv Hl. split.
  - apply datetime_day_plus_one_last, Hl.
  - apply accomplish_deed_last_day_of_month; assumption.
Qed.

Lemma accomplish_deed_window_fails_at_month_end_witness :
  Datetime.datetime 2016 12 (31 + 1) = Raise ValueError /\
  exists w',
    Control.accomplish_deed (Sample.at_ 2016 12 31 12) 1%nat 2 (Sample.world Sample.fresh)
      = (Raise ValueError, w') /\
    db w' = Sample.fresh /\ visible w' = visible (Sample.world Sample.fresh) /\
    outbox w' = [].
Proof.
  apply (accomplish_deed_window_fails_at_month_end (Sample.at_ 2016 12 31 12) 1%nat 2
           (Sample.world Sample.fresh)); reflexivity.
Defined.

(** C1.  31 January 2016.  Alice calls [accomplish_deed] at noon and again
    in the evening: both calls raise [ValueError], the second one not the
    exception with the text "Deed already accomplished today", and she has
    no Accomplishment that day, not one.  The same when the store already
    holds an Accomplishment of hers of that morning: the call raises
    [ValueError]; no Accomplishment is created. *)
Theorem accomplish_deed_twice_at_month_end :
  let noon := Sample.at_ 2016 1 31 12 in
  let evening := Sample.at_ 2016 1 31 18 in
  let tomorrow := Sample.at_ 2016 2 1 0 in
  let w := Sample.world Sample.fresh in
  let w1 := snd (Control.accomplish_deed noon 1%nat 1 w) in
  let w2 := snd (Control.accomplish_deed evening 1%nat 1 w1) in
  let v := Sample.world Sample.voted_jan31 in
  Datetime.add_one_day (midnight noon) = Ok tomorrow /\
  get_user (db w) (current_user (heap (visible w) 1%nat)) = Some Sample.alice /\
  fst (Control.accomplish_deed noon 1%nat 1 w) = Raise ValueError /\
  fst (Control.accomplish_deed evening 1%nat 1 w1) = Raise ValueError /\
  fst (Control.accomplish_deed evening 1%nat 1 w1) <> Raise AlreadyAccomplishedError /\
  votes_of (db w2) (User.id Sample.alice) (midnight noon) tomorrow = [] /\
  votes_of (db v) (User.id Sample.alice) (midnight noon) tomorrow
    = [Accomplishment.make 1 1 1 (Sample.at_ 2016 1 31 8)] /\
  fst (Control.accomplish_deed noon 1%nat 2 v) = Raise ValueError /\
  db (snd (Control.accomplish_deed noon 1%nat 2 v)) = db v.
Proof.
  repeat split; try reflexivity. vm_compute. discriminate.
Qed.

(** C2.  15 March 2016: Alice has voted for the Deed with id 257, the only
    vote of the day, so its share is 100 percent.  Her poll is not the
    voted Deed with its percentage but the two candidates of the day,
    without one. *)
Theorem get_todays_deeds_voted_deed_257 :
  let w := Sample.world Sample.voted_257 in
  let noon := Sample.clock (Sample.at_ 2016 3 15 12) in
  truthy (current_user (heap (visible w) 1%nat)) = true /\
  votes_of (db w) 1 (midnight (noon None)) (Sample.at_ 2016 3 16 0)
    = [Accomplishment.make 1 257 1 (Sample.at_ 2016 3 15 8)] /\
  percent (votes_for (db w) (midnight (noon None)) (Sample.at_ 2016 3 16 0) 257)
          (Z.of_nat (List.length (votes_within (db w) (midnight (noon None))
                                                (Sample.at_ 2016 3 16 0))))
    = Ok 100%float /\
  fst (Control.get_todays_deeds Sample.rand noon 1%nat None w)
    = Ok [Deed.to_json Sample.plant; Deed.to_json Sample.recycle] /\
  fst (Control.get_todays_deeds Sample.rand noon 1%nat None w)
    <> Ok [DeedView.update_percent_of_votes (Deed.to_json Sample.plant) 100%float].
Proof.
  repeat split; try (vm_compute; reflexivity). vm_compute. discriminate.
Qed.

(** C3 does not hold with [2-element] in it: with one Deed created before
    today the poll of an anonymous caller has one element. *)
Lemma get_todays_deeds_one_candidate :
  fst (Control.get_todays_deeds Sample.rand (Sample.clock (Sample.at_ 2016 3 15 12))
         0%nat None (Sample.world Sample.lonely))
  = Ok [Deed.to_json Sample.recycle] /\
  ~ (exists l, fst (Control.get_todays_deeds Sample.rand
                      (Sample.clock (Sample.at_ 2016 3 15 12))
                      0%nat None (Sample.world Sample.lonely)) = Ok l /\
               List.length l = 2%nat).
Proof.
  split; [ vm_compute; reflexivity | ].
  intros (l & H & Hlen). vm_compute in H. inversion H; subst l. discriminate.
Qed.

(** * The statements at sample inputs *)

Lemma session_commit_rollback_close_witness :
  (exists w',
     Control.session (Sample.rename_first "Reuse") (Sample.world Sample.fresh) = (Ok tt, w') /\
     calls w' = [commit; close] /\
     db w' = mkStore Sample.everyone
               [Deed.make 1 "Reuse" (Sample.at_ 2016 1 4 9); Sample.donate] [] /\
     visible w' = visible (Sample.world Sample.fresh) /\
     outbox w' = [] /\
     _clients w' = [0; 1; 2]%nat) /\
  (exists w',
     Control.session (bind (Sample.rename_first "Reuse") (fun _ => raise ZeroDivisionError))
                     (Sample.world Sample.fresh)
       = (@Raise unit ZeroDivisionError, w') /\
     calls w' = [rollback; close] /\
     db w' = Sample.fresh /\
     visible w' = visible (Sample.world Sample.fresh) /\
     outbox w' = [] /\
     _clients w' = [0; 1; 2]%nat).
Proof.
  split.
  - apply (session_commit_rollback_close (Sample.rename_first "Reuse")
             (Sample.world Sample.fresh) (Ok tt)
             (mkScope (mkStore Sample.everyone
                         [Deed.make 1 "Reuse" (Sample.at_ 2016 1 4 9); Sample.donate] [])
                      (visible (Sample.world Sample.fresh)))).
    reflexivity.
  - apply (session_commit_rollback_close
             (bind (Sample.rename_first "Reuse") (fun _ => raise ZeroDivisionError))
             (Sample.world Sample.fresh) (Raise ZeroDivisionError)
             (mkScope (mkStore Sample.everyone
                         [Deed.make 1 "Reuse" (Sample.at_ 2016 1 4 9); Sample.donate] [])
                      (visible (Sample.world Sample.fresh)))).
    reflexivity.
Defined.

Lemma sign_in_rejected_witness :
  (exists w',
     Control.sign_in Sample.check_password 1%nat "alice@example.org" "wrong horse"
                     (Sample.world Sample.fresh) = (Raise AuthenticationError, w') /\
     (forall c, user (heap (visible w') c) = user (Sample.clients c)) /\
     visible w' = visible (Sample.world Sample.fresh) /\
     db w' = Sample.fresh /\
     outbox w' = []) /\
  (exists w',
     Control.sign_in Sample.check_password 1%nat "eve@example.org" "correct horse"
                     (Sample.world Sample.fresh) = (Raise AuthenticationError, w') /\
     (forall c, user (heap (visible w') c) = user (Sample.clients c)) /\
     visible w' = visible (Sample.world Sample.fresh) /\
     db w' = Sample.fresh /\
     outbox w' = []).
Proof.
  split.
  - apply (sign_in_rejected Sample.check_password 1%nat "alice@example.org" "wrong horse"
             (Sample.world Sample.fresh)).
    right. exists Sample.alice. split; reflexivity.
  - apply (sign_in_rejected Sample.check_password 1%nat "eve@example.org" "correct horse"
             (Sample.world Sample.fresh)).
    left. reflexivity.
Defined.

Lemma flush_after_scope_witness :
  (exists w',
     Control.request
       (Control.session (bind (Sample.rename_first "Reuse")
                          (fun _ => bind (enqueue_all sample_events)
                                         (fun _ => lift (Ok tt)))))
       (Sample.world Sample.fresh) = (Ok tt, w') /\
     _pending (visible w') = [] /\
     db w' = sample_renamed /\
     outbox w' = [] ++ flat_map (deliveries w') ([] ++ sample_events)) /\
  (exists w',
     Control.request
       (Control.session (bind (Sample.rename_first "Reuse")
                          (fun _ => bind (enqueue_all sample_events)
                                         (fun _ => lift (@Raise unit ZeroDivisionError)))))
       (Sample.world Sample.fresh) = (Raise ZeroDivisionError, w') /\
     _pending (visible w') = [] /\
     db w' = Sample.fresh /\
     outbox w' = []).
Proof.
  split.
  - apply (flush_after_scope (Sample.rename_first "Reuse") sample_events (Ok tt)
             (Sample.world Sample.fresh)
             (mkScope sample_renamed (visible (Sample.world Sample.fresh)))).
    reflexivity.
  - apply (flush_after_scope (Sample.rename_first "Reuse") sample_events
             (@Raise unit ZeroDivisionError)
             (Sample.world Sample.fresh)
             (mkScope sample_renamed (visible (Sample.world Sample.fresh)))).
    reflexivity.
Defined.

(** What the clients were sent in the first case: the public entry went to
    the three of them, the other one to the client of user 2. *)
Lemma flush_after_scope_sample_outbox :
  outbox (snd (Control.request
                 (Control.session (bind (Sample.rename_first "Reuse")
                                    (fun _ => bind (enqueue_all sample_events)
                                                   (fun _ => lift (Ok tt)))))
                 (Sample.world Sample.fresh)))
  = [(0%nat, mkNews "insert_deed" (Deed.to_json Sample.recycle));
     (1%nat, mkNews "insert_deed" (Deed.to_json Sample.recycle));
     (2%nat, mkNews "insert_deed" (Deed.to_json Sample.recycle));
     (2%nat, mkNews "update_deed" (Deed.to_json Sample.donate))].
Proof. reflexivity. Qed.

Lemma get_todays_deeds_same_day_witness :
  exists shuffled,
    Permutation shuffled [Sample.recycle; Sample.donate] /\
    shuffled = Control.order_by_rand Sample.rand 20160315 [Sample.recycle; Sample.donate] /\
    fst (Control.get_todays_deeds Sample.rand (Sample.clock (Sample.at_ 2016 3 15 12))
           0%nat None (Sample.world Sample.fresh))
      = Ok (map Deed.to_json (firstn 2 shuffled)) /\
    fst (Control.get_todays_deeds Sample.rand (Sample.clock (Sample.at_ 2016 3 15 18))
           0%nat (Some "Europe/London"%string)
           (snd (Control.insert_deed (Sample.at_ 2016 3 15 9) 1%nat "Smile"
                   (Sample.world Sample.voted))))
      = Ok (map Deed.to_json (firstn 2 shuffled)) /\
    List.length (map Deed.to_json (firstn 2 shuffled)) = Nat.min 2 2.
Proof.
  apply (get_todays_deeds_same_day Sample.rand
           (Sample.clock (Sample.at_ 2016 3 15 12)) (Sample.clock (Sample.at_ 2016 3 15 18))
           0%nat 0%nat None (Some "Europe/London"%string)
           (Sample.world Sample.fresh)
           (snd (Control.insert_deed (Sample.at_ 2016 3 15 9) 1%nat "Smile"
                   (Sample.world Sample.voted)))
           (Sample.at_ 2016 3 16 0)); reflexivity.
Defined.

(** The scenario of the spec, on the days 14 and 15 March 2016: a Deed is
    inserted and announced to every client; the next day an anonymous poll
    shows it; the first [accomplish_deed] of Alice returns and the updated
    Deed is announced; her second one raises the exception with the text
    "Deed already accomplished today" and nothing is announced. *)
Lemma end_to_end_scenario :
  let w0 := Sample.world (mkStore Sample.everyone [] []) in
  let (r1, w1) := Control.request
                    (Control.insert_deed (Sample.at_ 2016 3 14 9) 1%nat "Recycle") w0 in
  let (r2, w2) := Control.request
                    (Control.get_todays_deeds Sample.rand
                       (Sample.clock (Sample.at_ 2016 3 15 8)) 0%nat None) w1 in
  let (r3, w3) := Control.request
                    (Control.accomplish_deed (Sample.at_ 2016 3 15 9) 1%nat 1) w2 in
  let (r4, w4) := Control.request
                    (Control.accomplish_deed (Sample.at_ 2016 3 15 10) 1%nat 1) w3 in
  let view := DeedView.make 1 "Recycle" (Sample.at_ 2016 3 14 9) None in
  r1 = Ok tt /\
  outbox w1 = [(0%nat, mkNews "insert_deed" view); (1%nat, mkNews "insert_deed" view);
               (2%nat, mkNews "insert_deed" view)] /\
  r2 = Ok [view] /\
  r3 = Ok tt /\
  outbox w3 = outbox w1 ++
              [(0%nat, mkNews "update_deed" view); (1%nat, mkNews "update_deed" view);
               (2%nat, mkNews "update_deed" view)] /\
  r4 = Raise AlreadyAccomplishedError /\
  outbox w4 = outbox w3 /\
  db w4 = db w3 /\
  List.length (accomplishments (db w4)) = 1%nat.
Proof. vm_compute. repeat split. Qed.

(** * Further properties of the control *)

(** ** Signing in and out *)

Ltac unfold_sign_in :=
  unfold Control.sign_in, Control.session, bind, try_except, lift, ret, raise, modify,
    Control.authenticate; simpl.

(** X1.  When exactly one stored User has the email and accepts the
    password, [sign_in] returns and the [user] of the calling client is the
    view of that User; its [current_user], the other clients, the rows, the
    pending list and the outbox are as before. *)
Theorem sign_in_accepted (check_password : User.t -> string -> bool)
    (client : ClientRef) (email password : string) (w : World) (u : User.t) :
  matching (db w) email = [u] ->
  check_password u password = true ->
  exists w',
    Control.sign_in check_password client email password w = (Ok tt, w') /\
    user (heap (visible w') client) = Some (User.to_json u) /\
    current_user (heap (visible w') client) = current_user (heap (visible w) client) /\
    (forall c, c <> client -> heap (visible w') c = heap (visible w) c) /\
    _pending (visible w') = _pending (visible w) /\
    db w' = db w /\
    outbox w' = outbox w.
Proof.
  unfold matching. intros Hm Hp. unfold_sign_in. rewrite Hm. simpl. rewrite Hp. simpl.
  eexists. split; [ reflexivity | ]. simpl. rewrite Nat.eqb_refl. simpl.
  repeat split.
  intros c Hc. apply Nat.eqb_neq in Hc. rewrite Hc. reflexivity.
Qed.

(** X2.  When two or more stored Users have the email, [sign_in] lets
    [MultipleResultsFound] of [one()] through, whatever the password: it is
    not turned into the "Email or password incorrect" exception.  Nothing
    changes. *)
Theorem sign_in_duplicate_email (check_password : User.t -> string -> bool)
    (client : ClientRef) (email password : string) (w : World)
    (u1 u2 : User.t) (l : list User.t) :
  matching (db w) email = u1 :: u2 :: l ->
  exists w',
    Control.sign_in check_password client email password w
      = (Raise MultipleResultsFound, w') /\
    Raise MultipleResultsFound <> @Raise unit AuthenticationError /\
    visible w' = visible w /\
    db w' = db w /\
    outbox w' = outbox w.
Proof.
  unfold matching. intro Hm. unfold_sign_in. rewrite Hm. simpl.
  eexists. split; [ reflexivity | ]. repeat split. discriminate.
Qed.

(** X3.  Whatever its outcome, [sign_in] writes no row, enqueues and
    broadcasts nothing, changes no [current_user] and touches no client but
    its caller. *)
Theorem sign_in_frame (check_password : User.t -> string -> bool)
    (client : ClientRef) (email password : string) (w : World) :
  let w' := snd (Control.sign_in check_password client email password w) in
  db w' = db w /\
  _pending (visible w') = _pending (visible w) /\
  outbox w' = outbox w /\
  _clients w' = _clients w /\
  (forall c, current_user (heap (visible w') c) = current_user (heap (visible w) c)) /\
  (forall c, c <> client -> heap (visible w') c = heap (visible w) c).
Proof.
  unfold_sign_in.
  destruct (one _) as [u|e]; simpl.
  - destruct (check_password u password); simpl.
    + repeat split.
      * intro c. destruct (Nat.eqb c client) eqn:E; [ | reflexivity ].
        apply Nat.eqb_eq in E. subst c. reflexivity.
      * intros c Hc. apply Nat.eqb_neq in Hc. rewrite Hc. reflexivity.
    + repeat split.
  - destruct e; simpl; repeat split.
Qed.

(** X4.  [sign_out] after [sign_in], whether that one was accepted or not,
    leaves a client that was signed out before as it was, and every other
    client, the rows and the pending list too. *)
Theorem sign_out_after_sign_in (check_password : User.t -> string -> bool)
    (client : ClientRef) (email password : string) (w : World) :
  user (heap (visible w) client) = None ->
  let w1 := snd (Control.sign_in check_password client email password w) in
  let w2 := snd (Control.sign_out client w1) in
  fst (Control.sign_out client w1) = Ok tt /\
  (forall c, heap (visible w2) c = heap (visible w) c) /\
  _pending (visible w2) = _pending (visible w) /\
  db w2 = db w /\
  outbox w2 = outbox w.
Proof.
  intro Hn. cbv zeta. unfold Control.sign_out, modify. unfold_sign_in.
  destruct (one _) as [u|e]; [ destruct (check_password u password) | destruct e ];
    simpl; (split; [ reflexivity | ]); (split; [ | repeat split ]);
    intro c; destruct (Nat.eqb c client) eqn:E; try reflexivity;
    apply Nat.eqb_eq in E; subst c;
    destruct (heap (visible w) client) as [us cu]; simpl in Hn; subst us; reflexivity.
Qed.

(** X5.  [_set_user] with the id of a stored User makes the view of that
    User the [user] of the client and commits; with an id no User has it
    raises [AttributeError] (the attribute [to_json] of [None]), the
    session is rolled back and the client is as before. *)
Theorem set_user_by_id (client : ClientRef) (user_id : Z) (w : World) :
  let (r, w') := Control._set_user client user_id w in
  match find (fun u => User.id u =? user_id) (users (db w)) with
  | Some u =>
      r = Ok tt /\
      User.id u = user_id /\
      user (heap (visible w') client) = Some (User.to_json u) /\
      calls w' = calls w ++ [commit; close]
  | None =>
      r = Raise AttributeError /\
      visible w' = visible w /\
      calls w' = calls w ++ [rollback; close]
  end /\
  db w' = db w /\ outbox w' = outbox w.
Proof.
  unfold Control._set_user, Control.session, bind, gets, raise, modify, get_user. simpl.
  destruct (find _ (users (db w))) as [u|] eqn:E; simpl.
  - apply find_some in E. destruct E as [_ E]. apply Z.eqb_eq in E.
    rewrite Nat.eqb_refl. repeat split. exact E.
  - repeat split.
Qed.

(** ** Who is sent what *)


(** X7.  A second [_flush] right after a first one sends nothing: an entry
    of the pending list is broadcast at most once. *)
Theorem flush_twice (error1 error2 : option Error) (w : World) :
  let w1 := snd (Control._flush error1 w) in
  let w2 := snd (Control._flush error2 w1) in
  outbox w2 = outbox w1 /\
  _pending (visible w2) = [] /\
  db w2 = db w.
Proof.
  destruct error1 as [e1|], error2 as [e2|]; cbv zeta;
    rewrite ?flush_success, ?flush_failure; simpl;
    rewrite ?flush_success, ?flush_failure; simpl;
    rewrite ?app_nil_r; repeat split.
Qed.

(** X8.  The rollback of a session does not reach the pending list: when a
    body enqueues the events [evs] and then raises, the rows are as before
    but the events are on the list, and unless [_flush] is called with the
    error they are broadcast by the next [_flush] of work that succeeded. *)
Theorem rollback_keeps_pending {A} (evs : list Pending) (e : Error) (w : World) :
  let w1 := snd (Control.session (bind (enqueue_all evs) (fun _ => @raise Scope A e)) w) in
  let w2 := snd (Control._flush None w1) in
  fst (Control.session (bind (enqueue_all evs) (fun _ => @raise Scope A e)) w) = Raise e /\
  db w1 = db w /\
  _pending (visible w1) = _pending (visible w) ++ evs /\
  outbox w1 = outbox w /\
  outbox w2 = outbox w ++ flat_map (deliveries w) (_pending (visible w) ++ evs).
Proof.
  assert (E : Control.session (bind (enqueue_all evs) (fun _ => @raise Scope A e)) w
              = (Raise e, mkWorld (db w) (_clients w)
                            (mkVisible (_pending (visible w) ++ evs) (heap (visible w)))
                            (outbox w) (calls w ++ [rollback; close]))).
  { unfold Control.session, bind. rewrite enqueue_all_appends. reflexivity. }
  cbv zeta. rewrite E, flush_success. simpl. repeat split.
Qed.

(** ** Votes *)

(** A call that raises has written nothing and enqueued nothing. *)
Lemma accomplish_deed_raise_clean (utcnow : Datetime.t) (client : ClientRef) (id : Z)
    (w w' : World) (e : Error) :
  Control.accomplish_deed utcnow client id w = (Raise e, w') ->
  db w' = db w /\ visible w' = visible w /\ outbox w' = outbox w.
Proof.
  unfold_accomplish.
  destruct (Datetime.datetime _ _ (Datetime.day utcnow)) as [today|];
    [ | intro E; inversion E; auto ].
  destruct (Datetime.datetime _ _ (Datetime.day utcnow + 1)) as [tomorrow|];
    [ | intro E; inversion E; auto ].
  destruct (get_user _ _) as [u|]; [ | intro E; inversion E; auto ].
  destruct (filter _ (accomplishments (db w))) as [|a l]; simpl;
    [ | intro E; inversion E; auto ].
  destruct (one _) as [deed|]; [ discriminate | intro E; inversion E; auto ].
Qed.

(** X9.  The vote that goes through.  On a day that is not the last of its
    month, for a caller whose User is stored and has no Accomplishment in
    the window of the day, and an id that exactly one Deed has:
    [accomplish_deed] returns, one Accomplishment of that User for that
    Deed, completed now, is appended and committed, and one public
    [update_deed] entry with the view of the Deed is put on the pending
    list.  Users, Deeds and the outbox are as before. *)
Theorem accomplish_deed_recorded (utcnow tomorrow : Datetime.t) (client : ClientRef)
    (id : Z) (w : World) (u : User.t) (deed : Deed.t) :
  Datetime.valid utcnow = true ->
  last_day_of_month utcnow = false ->
  Datetime.add_one_day (midnight utcnow) = Ok tomorrow ->
  get_user (db w) (current_user (heap (visible w) client)) = Some u ->
  votes_of (db w) (User.id u) (midnight utcnow) tomorrow = [] ->
  filter (fun d => Deed.id d =? id) (deeds (db w)) = [deed] ->
  exists w',
    Control.accomplish_deed utcnow client id w = (Ok tt, w') /\
    accomplishments (db w')
      = accomplishments (db w) ++
        [Accomplishment.make (next_id (map Accomplishment.id (accomplishments (db w))))
                             id (User.id u) utcnow] /\
    deeds (db w') = deeds (db w) /\
    users (db w') = users (db w) /\
    _pending (visible w')
      = _pending (visible w) ++ [("update_deed"%string, Deed.to_json deed, None)] /\
    heap (visible w') = heap (visible w) /\
    outbox w' = outbox w /\
    calls w' = calls w ++ [commit; close].
Proof.
  intros Hv Hl Ht Hu Hvotes Hdeed.
  rewrite (day_plus_one_is_add_one_day utcnow Hl Hv) in Ht. inversion Ht; subst tomorrow.
  assert (Hid : Deed.id deed = id).
  { assert (H : In deed [deed]) by (left; reflexivity).
    rewrite <- Hdeed in H. apply filter_In in H. destruct H as [_ H].
    apply Z.eqb_eq in H. exact H. }
  unfold votes_of, votes_within in Hvotes. rewrite filter_filter_and in Hvotes.
  unfold_accomplish.
  rewrite (datetime_of_valid utcnow Hv), (datetime_day_plus_one utcnow Hv Hl), Hu, Hvotes.
  simpl. rewrite Hdeed. simpl. rewrite Hid.
  eexists. repeat split.
Qed.

(** X10.  A vote for an id no Deed has: [NoResultFound] of [one()]; no
    Accomplishment is created and nothing is enqueued. *)
Theorem accomplish_deed_unknown_deed (utcnow tomorrow : Datetime.t) (client : ClientRef)
    (id : Z) (w : World) (u : User.t) :
  Datetime.valid utcnow = true ->
  last_day_of_month utcnow = false ->
  Datetime.add_one_day (midnight utcnow) = Ok tomorrow ->
  get_user (db w) (current_user (heap (visible w) client)) = Some u ->
  votes_of (db w) (User.id u) (midnight utcnow) tomorrow = [] ->
  (forall d, In d (deeds (db w)) -> Deed.id d <> id) ->
  exists w',
    Control.accomplish_deed utcnow client id w = (Raise NoResultFound, w') /\
    db w' = db w /\ visible w' = visible w /\ outbox w' = outbox w /\
    calls w' = calls w ++ [rollback; close].
Proof.
  intros Hv Hl Ht Hu Hvotes Hno.
  rewrite (day_plus_one_is_add_one_day utcnow Hl Hv) in Ht. inversion Ht; subst tomorrow.
  assert (Hdeed : filter (fun d => Deed.id d =? id) (deeds (db w)) = []).
  { induction (deeds (db w)) as [|d l IH]; simpl; [ reflexivity | ].
    destruct (Z.eqb_spec (Deed.id d) id) as [E|_].
    - exfalso. apply (Hno d); [ left; reflexivity | exact E ].
    - apply IH. intros d' Hd'. apply Hno. right. exact Hd'. }
  unfold votes_of, votes_within in Hvotes. rewrite filter_filter_and in Hvotes.
  unfold_accomplish.
  rewrite (datetime_of_valid utcnow Hv), (datetime_day_plus_one utcnow Hv Hl), Hu, Hvotes.
  simpl. rewrite Hdeed. simpl.
  eexists. repeat split.
Qed.

(** X11.  The ledger of votes only grows, by one row at a time: whatever
    the arguments and the state, [accomplish_deed] leaves Users and Deeds
    alone and either returns, having appended one Accomplishment completed
    now, or raises, having changed no row and no pending entry.  It never
    sends anything itself. *)
Theorem accomplish_deed_append_only (utcnow : Datetime.t) (client : ClientRef)
    (id : Z) (w : World) :
  let (r, w') := Control.accomplish_deed utcnow client id w in
  users (db w') = users (db w) /\
  deeds (db w') = deeds (db w) /\
  outbox w' = outbox w /\
  match r with
  | Ok _ => exists a, accomplishments (db w') = accomplishments (db w) ++ [a] /\
                      Accomplishment.completed a = utcnow /\
                      List.length (_pending (visible w')) = S (List.length (_pending (visible w)))
  | Raise _ => db w' = db w /\ visible w' = visible w
  end.
Proof.
  destruct (Control.accomplish_deed utcnow client id w) as [[[]|e] w'] eqn:E.
  - destruct (accomplish_deed_ok_inv _ _ _ _ _ E)
      as (today & tmr & u & deed & _ & _ & _ & _ & _ & Edb & Evis & Eout).
    rewrite Edb, Evis, Eout. simpl. repeat split.
    eexists. repeat split. rewrite length_app. simpl. lia.
  - destruct (accomplish_deed_raise_clean _ _ _ _ _ _ E) as (Edb & Evis & Eout).
    rewrite Edb, Evis, Eout. repeat split.
Qed.

(** X12.  One vote a day is kept as an invariant: if no user has more than
    one Accomplishment in the window of the day of the call, then after
    [accomplish_deed], returned or raised, no user has. *)
Theorem accomplish_deed_keeps_one_vote_a_day (utcnow tomorrow : Datetime.t)
    (client : ClientRef) (id : Z) (w : World) :
  Datetime.valid utcnow = true ->
  Datetime.add_one_day (midnight utcnow) = Ok tomorrow ->
  (forall uid, (List.length (votes_of (db w) uid (midnight utcnow) tomorrow) <= 1)%nat) ->
  forall uid,
    (List.length (votes_of (db (snd (Control.accomplish_deed utcnow client id w)))
                           uid (midnight utcnow) tomorrow) <= 1)%nat.
Proof.
  intros Hv Ht Hinv uid.
  destruct (Control.accomplish_deed utcnow client id w) as [[[]|e] w'] eqn:E; simpl.
  - destruct (accomplish_deed_ok_inv _ _ _ _ _ E)
      as (today & tmr & u & deed & Etoday & Etmr & _ & Enone & _ & Edb & _ & _).
    destruct (last_day_of_month utcnow) eqn:Hl.
    { rewrite (datetime_day_plus_one_last utcnow Hl) in Etmr. discriminate. }
    rewrite (datetime_of_valid utcnow Hv) in Etoday. inversion Etoday; subst today.
    rewrite (datetime_day_plus_one utcnow Hv Hl) in Etmr. inversion Etmr; subst tmr.
    rewrite (day_plus_one_is_add_one_day utcnow Hl Hv) in Ht. inversion Ht; subst tomorrow.
    specialize (Hinv uid). unfold votes_of, votes_within in *.
    rewrite filter_filter_and in *. rewrite Edb. simpl. rewrite filter_app, length_app.
    simpl.
    destruct (Z.eqb_spec (User.id u) uid) as [<-|Hne]; simpl.
    + rewrite Enone. simpl. destruct (completed_within _ _ _); simpl; lia.
    + lia.
  - destruct (accomplish_deed_raise_clean _ _ _ _ _ _ E) as (Edb & _).
    rewrite Edb. apply Hinv.
Qed.

(** ** Fresh ids *)

Lemma le_fold_max (x : Z) (ids : list Z) : In x ids -> x <= fold_right Z.max 0 ids.
Proof.
  induction ids as [|y ids IH]; intro H; [ contradiction | ].
  simpl. destruct H as [->|H]; [ lia | specialize (IH H); lia ].
Qed.

(** The next id is above every id in use, and above 0. *)
Lemma next_id_fresh (ids : list Z) : ~ In (next_id ids) ids /\ 0 < next_id ids.
Proof.
  unfold next_id. split.
  - intro H. apply le_fold_max in H. lia.
  - assert (0 <= fold_right Z.max 0 ids) by (induction ids; simpl; lia). lia.
Qed.

Lemma NoDup_snoc {A} (l : list A) (x : A) : NoDup l -> ~ In x l -> NoDup (l ++ [x]).
Proof.
  intros Hl Hx. apply NoDup_app; [ exact Hl | repeat constructor; intros [] | ].
  intros a Ha [<-|[]]. exact (Hx Ha).
Qed.

(** Ids stay distinct under insertion: when the stored Deeds have
    pairwise different ids, they still have after [insert_deed], by either
    path, and both paths store the same Deed. *)
Theorem insert_deed_keeps_ids_distinct (now : Datetime.t) (client : ClientRef)
    (description : string) (w : World) :
  NoDup (map Deed.id (deeds (db w))) ->
  NoDup (map Deed.id (deeds (db (snd (Control.insert_deed now client description w))))) /\
  NoDup (map Deed.id (deeds (db (snd (actions.insert_deed now description w))))) /\
  db (snd (actions.insert_deed now description w))
    = db (snd (Control.insert_deed now client description w)).
Proof.
  intro H. simpl. rewrite map_app. simpl.
  repeat split; apply NoDup_snoc; try assumption; apply next_id_fresh.
Qed.

(** The same for the votes: when the stored Accomplishments have
    pairwise different ids, they still have after [accomplish_deed]. *)
Theorem accomplish_deed_keeps_ids_distinct (utcnow : Datetime.t) (client : ClientRef)
    (id : Z) (w : World) :
  NoDup (map Accomplishment.id (accomplishments (db w))) ->
  NoDup (map Accomplishment.id
           (accomplishments (db (snd (Control.accomplish_deed utcnow client id w))))).
Proof.
  intro H.
  destruct (Control.accomplish_deed utcnow client id w) as [[[]|e] w'] eqn:E; simpl.
  - destruct (accomplish_deed_ok_inv _ _ _ _ _ E)
      as (today & tmr & u & deed & _ & _ & _ & _ & _ & Edb & _ & _).
    rewrite Edb. simpl. rewrite map_app. simpl.
    apply NoDup_snoc; [ exact H | apply next_id_fresh ].
  - destruct (accomplish_deed_raise_clean _ _ _ _ _ _ E) as (Edb & _).
    rewrite Edb. exact H.
Qed.

(** ** Listing the Deeds *)

(** X13.  What is inserted is listed: after [insert_deed], [get_deeds]
    without a limit returns what it returned before and then the view of
    the new Deed, which has the description given and an id no listed Deed
    had. *)
Theorem get_deeds_after_insert_deed (now : Datetime.t) (client reader : ClientRef)
    (description : string) (w : World) :
  let w1 := snd (Control.insert_deed now client description w) in
  exists before view,
    fst (Control.get_deeds reader None w) = Ok before /\
    fst (Control.get_deeds reader None w1) = Ok (before ++ [view]) /\
    DeedView.description view = description /\
    DeedView.created view = now /\
    DeedView.percent_of_votes view = None /\
    ~ In (DeedView.id view) (map DeedView.id before).
Proof.
  cbv zeta. eexists. eexists. split; [ reflexivity | ].
  split; [ simpl; rewrite map_app; reflexivity | ].
  simpl. repeat split.
  rewrite map_map. simpl. apply next_id_fresh.
Qed.

(** [get_deeds] with a limit of [n] returns exactly the first
    [min n N] of the [N] views it returns without a limit: all of them
    when [n >= N], none when [n = 0]. *)
Theorem get_deeds_limit_prefix (client : ClientRef) (n : nat) (w : World) :
  exists all limited,
    fst (Control.get_deeds client None w) = Ok all /\
    fst (Control.get_deeds client (Some n) w) = Ok limited /\
    limited = firstn n all /\
    List.length limited = Nat.min n (List.length all) /\
    List.length all = List.length (deeds (db w)).
Proof.
  eexists. eexists. split; [ reflexivity | ]. split; [ reflexivity | ].
  simpl. rewrite firstn_map. split; [ reflexivity | ].
  rewrite !length_map, length_firstn. split; reflexivity.
Qed.

(** ** The poll, further *)

(** X14.  A caller with a [current_user] but no Accomplishment in today's
    window gets what an anonymous caller gets: the candidates of the day,
    without a percentage. *)
Theorem get_todays_deeds_not_voted (rand : Z -> nat -> float)
    (now : option string -> Datetime.t) (client : ClientRef)
    (timezone : option string) (w : World) (tomorrow : Datetime.t) (uid : Z) :
  Datetime.valid (now timezone) = true ->
  Datetime.add_one_day (midnight (now timezone)) = Ok tomorrow ->
  current_user (heap (visible w) client) = Some uid ->
  votes_of (db w) uid (midnight (now timezone)) tomorrow = [] ->
  fst (Control.get_todays_deeds rand now client timezone w)
  = Ok (map Deed.to_json
          (firstn 2 (Control.order_by_rand rand (Datetime.strftime_Ymd (now timezone))
                       (Control.eligible (db w) (midnight (now timezone)))))) /\
  forall v, In v (map Deed.to_json
                    (firstn 2 (Control.order_by_rand rand (Datetime.strftime_Ymd (now timezone))
                                 (Control.eligible (db w) (midnight (now timezone))))))
            -> DeedView.percent_of_votes v = None.
Proof.
  intros Hv Ht Hc Hvotes. split.
  - unfold votes_of, votes_within in Hvotes.
    unfold_poll. rewrite (datetime_of_valid _ Hv), Ht, Hc. simpl.
    destruct (negb (uid =? 0)); [ | reflexivity ].
    rewrite (filter_ext _ (fun x => (Accomplishment.user_id x =? uid) &&
                                    completed_within (midnight (now timezone)) tomorrow x))
      by (intro x; apply andb_comm).
    rewrite <- filter_filter_and. cbn [rows self]. rewrite Hvotes. reflexivity.
  - intros v Hin. apply in_map_iff in Hin. destruct Hin as (d & <- & _). reflexivity.
Qed.

(** X15.  A caller with two or more Accomplishments in today's window does
    not get a poll: [one_or_none()] raises [MultipleResultsFound]. *)
Theorem get_todays_deeds_two_votes (rand : Z -> nat -> float)
    (now : option string -> Datetime.t) (client : ClientRef)
    (timezone : option string) (w : World) (tomorrow : Datetime.t) (uid : Z)
    (a1 a2 : Accomplishment.t) (l : list Accomplishment.t) :
  Datetime.valid (now timezone) = true ->
  Datetime.add_one_day (midnight (now timezone)) = Ok tomorrow ->
  current_user (heap (visible w) client) = Some uid ->
  uid <> 0 ->
  votes_of (db w) uid (midnight (now timezone)) tomorrow = a1 :: a2 :: l ->
  fst (Control.get_todays_deeds rand now client timezone w) = Raise MultipleResultsFound.
Proof.
  intros Hv Ht Hc Hu Hvotes.
  unfold votes_of, votes_within in Hvotes.
  unfold_poll. rewrite (datetime_of_valid _ Hv), Ht, Hc. simpl.
  replace (negb (uid =? 0)) with true
    by (symmetry; apply negb_true_iff, Z.eqb_neq; exact Hu).
  rewrite (filter_ext _ (fun x => (Accomplishment.user_id x =? uid) &&
                                  completed_within (midnight (now timezone)) tomorrow x))
    by (intro x; apply andb_comm).
  rewrite <- filter_filter_and. cbn [rows self]. rewrite Hvotes. reflexivity.
Qed.

(** A row of the grouped counts comes from a row that was grouped. *)
Lemma group_count_nonempty (ids : list Z) (row : Z * Z) :
  In row (group_count ids) -> ids <> [].
Proof.
  unfold group_count. intros H E. subst ids. simpl in H. exact H.
Qed.

Lemma add_one_day_error (x : Datetime.t) (e : Error) :
  Datetime.add_one_day x = Raise e -> e = OverflowError.
Proof.
  unfold Datetime.add_one_day.
  destruct (Datetime.day x <? _); [ discriminate | ].
  destruct (Datetime.month x <? 12); [ discriminate | ].
  destruct (Datetime.year x <? Datetime.MAXYEAR); [ discriminate | ].
  intro E. inversion E. reflexivity.
Qed.

Lemma one_or_none_error {A} (l : list A) (e : Error) :
  one_or_none l = Raise e -> e = MultipleResultsFound.
Proof. destruct l as [|x [|y l]]; intro E; inversion E. reflexivity. Qed.

(** X16.  The division of the percentage is never by zero: whatever the
    state, the caller and the clock, [get_todays_deeds] does not raise
    [ZeroDivisionError].  The total it divides by is the number of the
    Accomplishments in the window, and the division is reached only when
    one of them gave a group. *)
Theorem get_todays_deeds_no_zero_division (rand : Z -> nat -> float)
    (now : option string -> Datetime.t) (client : ClientRef)
    (timezone : option string) (w : World) :
  fst (Control.get_todays_deeds rand now client timezone w) <> Raise ZeroDivisionError.
Proof.
  unfold_poll. unfold Datetime.datetime.
  destruct (Datetime.valid_date _ _ _); simpl; [ | discriminate ].
  destruct (Datetime.add_one_day _) as [tomorrow|e] eqn:Ea; simpl.
  2: { apply add_one_day_error in Ea. subst e. discriminate. }
  destruct (truthy _); [ | simpl; discriminate ].
  destruct (one_or_none _) as [[a|]|e] eqn:Eone; simpl; try discriminate.
  - destruct (find _ _) as [[k c]|] eqn:Efind; simpl; [ | discriminate ].
    apply find_some in Efind. destruct Efind as [Hin _].
    apply group_count_nonempty in Hin.
    rewrite sum_counts_group_count. unfold percent.
    match goal with
    | |- context [Z.of_nat (List.length ?l) =? 0] =>
        destruct (Z.eqb_spec (Z.of_nat (List.length l)) 0) as [E|_];
          [ exfalso; apply Hin; destruct l; [ reflexivity | simpl in E; lia ] | ]
    end.
    simpl. destruct (deed_of (db w) a); simpl; discriminate.
  - apply one_or_none_error in Eone. subst e. discriminate.
Qed.

(** ** The candidates *)

Lemma NoDup_map_filter {A B} (g : A -> B) (f : A -> bool) (l : list A) :
  NoDup (map g l) -> NoDup (map g (filter f l)).
Proof.
  induction l as [|x l IH]; simpl; intro H; [ constructor | ].
  inversion H as [|y l' Hx Hl]; subst.
  destruct (f x); simpl; [ | apply IH, Hl ].
  constructor; [ | apply IH, Hl ].
  intro Hin. apply Hx. apply in_map_iff in Hin. destruct Hin as (z & E & Hz).
  apply in_map_iff. exists z. split; [ exact E | ]. apply filter_In in Hz. apply Hz.
Qed.

Lemma NoDup_firstn_of {A} (n : nat) (l : list A) : NoDup l -> NoDup (firstn n l).
Proof.
  intro H. rewrite <- (firstn_skipn n l) in H. apply NoDup_app_remove_r in H. exact H.
Qed.

Lemma In_firstn {A} (n : nat) (l : list A) (x : A) : In x (firstn n l) -> In x l.
Proof.
  intro H. rewrite <- (firstn_skipn n l). apply in_or_app. left. exact H.
Qed.

(** X17.  The candidates an anonymous caller is shown are at most two
    stored Deeds created before today's midnight, and, the stored Deeds
    having pairwise different ids, two different ones. *)
Theorem get_todays_deeds_candidates (rand : Z -> nat -> float)
    (now : option string -> Datetime.t) (client : ClientRef)
    (timezone : option string) (w : World) (tomorrow : Datetime.t) :
  Datetime.valid (now timezone) = true ->
  Datetime.add_one_day (midnight (now timezone)) = Ok tomorrow ->
  truthy (current_user (heap (visible w) client)) = false ->
  NoDup (map Deed.id (deeds (db w))) ->
  exists candidates,
    fst (Control.get_todays_deeds rand now client timezone w)
      = Ok (map Deed.to_json candidates) /\
    (List.length candidates <= 2)%nat /\
    NoDup (map DeedView.id (map Deed.to_json candidates)) /\
    forall d, In d candidates ->
              In d (deeds (db w)) /\
              Datetime.ltb (Deed.created d) (midnight (now timezone)) = true.
Proof.
  intros Hv Ht Hc Hnd. eexists. split.
  - apply (get_todays_deeds_anonymous rand now client timezone w tomorrow); assumption.
  - split; [ rewrite length_firstn; lia | ]. split.
    + rewrite map_map, (map_ext _ Deed.id) by (intro; reflexivity).
      rewrite <- firstn_map. apply NoDup_firstn_of.
      apply (Permutation_NoDup
               (l := map Deed.id (Control.eligible (db w) (midnight (now timezone))))).
      * apply Permutation_sym, Permutation_map, order_by_rand_perm.
      * apply NoDup_map_filter, Hnd.
    + intros d Hd. apply In_firstn in Hd.
      apply (Permutation_in _ (order_by_rand_perm rand _ _)) in Hd.
      unfold Control.eligible in Hd. apply filter_In in Hd. exact Hd.
Qed.

(** X19.  A Deed inserted today, or at any instant that is not before
    today's midnight, does not enter today's poll: an anonymous caller
    gets after the insertion what it got before. *)
Theorem get_todays_deeds_after_insert_deed (rand : Z -> nat -> float)
    (now : option string -> Datetime.t) (client inserter : ClientRef)
    (timezone : option string) (w : World) (tomorrow stamp : Datetime.t)
    (description : string) :
  Datetime.valid (now timezone) = true ->
  Datetime.add_one_day (midnight (now timezone)) = Ok tomorrow ->
  truthy (current_user (heap (visible w) client)) = false ->
  Datetime.ltb stamp (midnight (now timezone)) = false ->
  fst (Control.get_todays_deeds rand now client timezone
         (snd (Control.insert_deed stamp inserter description w)))
  = fst (Control.get_todays_deeds rand now client timezone w).
Proof.
  intros Hv Ht Hc Hs.
  rewrite (get_todays_deeds_anonymous rand now client timezone w tomorrow) by assumption.
  rewrite (get_todays_deeds_anonymous rand now client timezone _ tomorrow);
    [ | assumption | assumption | exact Hc ].
  simpl. unfold Control.eligible. simpl. rewrite filter_app. simpl. rewrite Hs.
  rewrite app_nil_r. reflexivity.
Qed.

Lemma find_of_filter_singleton {A} (f : A -> bool) (l : list A) (x : A) :
  filter f l = [x] -> find f l = Some x.
Proof.
  induction l as [|y l IH]; simpl; [ discriminate | ].
  destruct (f y); [ intro E; inversion E; reflexivity | exact IH ].
Qed.

Lemma one_singleton {A} (l : list A) (x : A) : one l = Ok x -> l = [x].
Proof. destruct l as [|y [|z l]]; intro E; inversion E. reflexivity. Qed.

(** X18.  Vote, then poll.  After an [accomplish_deed] that returned, for
    a Deed with an id up to 256, the poll of the same client on the same
    day is the voted Deed alone, with the percentage of the votes of the
    day that are for it. *)
Theorem get_todays_deeds_after_accomplish_deed (rand : Z -> nat -> float)
    (utcnow tomorrow : Datetime.t) (now : option string -> Datetime.t)
    (timezone : option string) (client : ClientRef) (id uid : Z) (w w1 : World) :
  Datetime.valid utcnow = true ->
  Datetime.valid (now timezone) = true ->
  midnight (now timezone) = midnight utcnow ->
  Datetime.add_one_day (midnight utcnow) = Ok tomorrow ->
  current_user (heap (visible w) client) = Some uid ->
  uid <> 0 ->
  -5 <= id <= 256 ->
  Control.accomplish_deed utcnow client id w = (Ok tt, w1) ->
  exists deed pct,
    In deed (deeds (db w)) /\
    Deed.id deed = id /\
    percent (votes_for (db w1) (midnight utcnow) tomorrow id)
            (Z.of_nat (List.length (votes_within (db w1) (midnight utcnow) tomorrow)))
      = Ok pct /\
    fst (Control.get_todays_deeds rand now client timezone w1)
      = Ok [DeedView.update_percent_of_votes (Deed.to_json deed) pct].
Proof.
  intros Hv1 Hv2 Hday Ht Hc Hu Hid H1.
  destruct (accomplish_deed_ok_inv _ _ _ _ _ H1)
    as (today & tmr & u & deed & Etoday & Etmr & Eu & Enone & Edeed & Edb & Evis & _).
  destruct (last_day_of_month utcnow) eqn:Hl.
  { rewrite (datetime_day_plus_one_last utcnow Hl) in Etmr. discriminate. }
  rewrite (datetime_of_valid utcnow Hv1) in Etoday. inversion Etoday; subst today.
  rewrite (datetime_day_plus_one utcnow Hv1 Hl) in Etmr. inversion Etmr; subst tmr.
  pose proof Ht as Ht'.
  rewrite (day_plus_one_is_add_one_day utcnow Hl Hv1) in Ht'. inversion Ht'; subst tomorrow.
  apply one_singleton in Edeed.
  assert (Hdeed : In deed (deeds (db w)) /\ Deed.id deed = id).
  { assert (H : In deed [deed]) by (left; reflexivity).
    rewrite <- Edeed in H. apply filter_In in H. destruct H as [H E].
    apply Z.eqb_eq in E. split; assumption. }
  destruct Hdeed as [Hin Hdid].
  assert (Huid : User.id u = uid).
  { rewrite Hc in Eu. simpl in Eu. apply find_some in Eu. destruct Eu as [_ E].
    apply Z.eqb_eq in E. exact E. }
  set (a := Accomplishment.make (next_id (map Accomplishment.id (accomplishments (db w))))
                                (Deed.id deed) (User.id u) utcnow) in *.
  assert (Hvotes : votes_of (db w1) uid (midnight (now timezone))
                     (Datetime.make (Datetime.year utcnow) (Datetime.month utcnow)
                                    (Datetime.day utcnow + 1) 0 0 0 0) = [a]).
  { rewrite Hday. unfold votes_of, votes_within. rewrite filter_filter_and, Edb. simpl.
    rewrite filter_app. rewrite <- Huid, Enone. simpl.
    rewrite Z.eqb_refl. unfold completed_within. simpl.
    rewrite (geb_midnight utcnow Hv1), (ltb_day_plus_one utcnow). reflexivity. }
  destruct (get_todays_deeds_voted rand now client timezone w1
              (Datetime.make (Datetime.year utcnow) (Datetime.month utcnow)
                             (Datetime.day utcnow + 1) 0 0 0 0) uid a deed)
    as (pct & Hpct & Hpoll); try assumption.
  - rewrite Hday. exact Ht.
  - rewrite Evis. exact Hc.
  - simpl. rewrite Hdid. exact Hid.
  - unfold deed_of. rewrite Edb. simpl. rewrite <- Hdid in Edeed.
    apply find_of_filter_singleton. exact Edeed.
  - exists deed, pct. repeat split; try assumption.
    rewrite Hday in Hpct. simpl in Hpct. rewrite Hdid in Hpct. exact Hpct.
Qed.

(** ** From the vote to the clients *)

Lemma audience_public (w : World) : Control.audience w None = _clients w.
Proof.
  unfold Control.audience. induction (_clients w) as [|c l IH]; simpl;
    [ reflexivity | rewrite IH; reflexivity ].
Qed.


(** A session scope does not touch the client list. *)
Lemma session_keeps_clients {A} (body : SE Scope A) (w : World) :
  _clients (snd (Control.session body w)) = _clients w.
Proof.
  unfold Control.session.
  destruct (body (mkScope (db w) (visible w))) as [[a|e] sc]; reflexivity.
Qed.

(** X21.  A vote that goes through, run as a request with an empty pending
    list: every client of the control, signed in or not, is sent the
    [update_deed] news with the view of the Deed, once, in the order of the
    client list, and the pending list is empty again. *)
Theorem request_accomplish_deed_broadcast (utcnow tomorrow : Datetime.t)
    (client : ClientRef) (id : Z) (w : World) (u : User.t) (deed : Deed.t) :
  Datetime.valid utcnow = true ->
  last_day_of_month utcnow = false ->
  Datetime.add_one_day (midnight utcnow) = Ok tomorrow ->
  get_user (db w) (current_user (heap (visible w) client)) = Some u ->
  votes_of (db w) (User.id u) (midnight utcnow) tomorrow = [] ->
  filter (fun d => Deed.id d =? id) (deeds (db w)) = [deed] ->
  _pending (visible w) = [] ->
  let (r, w') := Control.request (Control.accomplish_deed utcnow client id) w in
  r = Ok tt /\
  outbox w' = outbox w ++
              map (fun c => (c, mkNews "update_deed" (Deed.to_json deed))) (_clients w) /\
  _pending (visible w') = [] /\
  List.length (accomplishments (db w')) = S (List.length (accomplishments (db w))).
Proof.
  intros Hv Hl Ht Hu Hvotes Hdeed Hp.
  rewrite (day_plus_one_is_add_one_day utcnow Hl Hv) in Ht. inversion Ht; subst tomorrow.
  unfold votes_of, votes_within in Hvotes. rewrite filter_filter_and in Hvotes.
  unfold Control.request. unfold_accomplish.
  rewrite (datetime_of_valid utcnow Hv), (datetime_day_plus_one utcnow Hv Hl), Hu, Hvotes.
  simpl. rewrite Hdeed. simpl. rewrite flush_success. simpl.
  rewrite Hp. simpl. rewrite audience_public, app_nil_r, length_app. simpl.
  repeat split. lia.
Qed.

(** ** The further properties at sample inputs *)

Lemma sign_in_accepted_witness :
  exists w',
    Control.sign_in Sample.check_password 1%nat "alice@example.org" "correct horse"
                    (Sample.world Sample.fresh) = (Ok tt, w') /\
    user (heap (visible w') 1%nat) = Some (User.to_json Sample.alice) /\
    current_user (heap (visible w') 1%nat) = Some 1 /\
    (forall c, c <> 1%nat -> heap (visible w') c = Sample.clients c) /\
    _pending (visible w') = [] /\
    db w' = Sample.fresh /\
    outbox w' = [].
Proof.
  apply (sign_in_accepted Sample.check_password 1%nat "alice@example.org" "correct horse"
           (Sample.world Sample.fresh) Sample.alice); reflexivity.
Defined.

Lemma sign_in_duplicate_email_witness :
  exists w',
    Control.sign_in Sample.check_password 1%nat "alice@example.org" "correct horse"
                    (Sample.world sample_duplicates) = (Raise MultipleResultsFound, w') /\
    Raise MultipleResultsFound <> @Raise unit AuthenticationError /\
    visible w' = visible (Sample.world sample_duplicates) /\
    db w' = sample_duplicates /\
    outbox w' = [].
Proof.
  apply (sign_in_duplicate_email Sample.check_password 1%nat "alice@example.org"
           "correct horse" (Sample.world sample_duplicates)
           Sample.alice (User.make 5 "alice@example.org" "other") []).
  reflexivity.
Defined.

Lemma sign_out_after_sign_in_witness :
  let w := Sample.world Sample.fresh in
  let w1 := snd (Control.sign_in Sample.check_password 1%nat "alice@example.org"
                   "correct horse" w) in
  let w2 := snd (Control.sign_out 1%nat w1) in
  fst (Control.sign_out 1%nat w1) = Ok tt /\
  (forall c, heap (visible w2) c = heap (visible w) c) /\
  _pending (visible w2) = _pending (visible w) /\
  db w2 = db w /\
  outbox w2 = outbox w.
Proof.
  apply (sign_out_after_sign_in Sample.check_password 1%nat "alice@example.org"
           "correct horse" (Sample.world Sample.fresh)).
  reflexivity.
Defined.

Lemma accomplish_deed_recorded_witness :
  exists w',
    Control.accomplish_deed (Sample.at_ 2016 3 15 12) 1%nat 2 (Sample.world Sample.fresh)
      = (Ok tt, w') /\
    accomplishments (db w')
      = [] ++ [Accomplishment.make (next_id (map Accomplishment.id [])) 2
                 (User.id Sample.alice) (Sample.at_ 2016 3 15 12)] /\
    deeds (db w') = [Sample.recycle; Sample.donate] /\
    users (db w') = Sample.everyone /\
    _pending (visible w') = [] ++ [("update_deed"%string, Deed.to_json Sample.donate, None)] /\
    heap (visible w') = Sample.clients /\
    outbox w' = [] /\
    calls w' = [] ++ [commit; close].
Proof.
  apply (accomplish_deed_recorded (Sample.at_ 2016 3 15 12) (Sample.at_ 2016 3 16 0)
           1%nat 2 (Sample.world Sample.fresh) Sample.alice Sample.donate); reflexivity.
Defined.

Lemma accomplish_deed_unknown_deed_witness :
  exists w',
    Control.accomplish_deed (Sample.at_ 2016 3 15 12) 1%nat 7 (Sample.world Sample.fresh)
      = (Raise NoResultFound, w') /\
    db w' = Sample.fresh /\ visible w' = visible (Sample.world Sample.fresh) /\
    outbox w' = [] /\
    calls w' = [] ++ [rollback; close].
Proof.
  apply (accomplish_deed_unknown_deed (Sample.at_ 2016 3 15 12) (Sample.at_ 2016 3 16 0)
           1%nat 7 (Sample.world Sample.fresh) Sample.alice); try reflexivity.
  intros d [<-|[<-|[]]]; simpl; lia.
Defined.

Lemma accomplish_deed_keeps_one_vote_a_day_witness :
  (List.length (votes_of (db (snd (Control.accomplish_deed (Sample.at_ 2016 3 15 12) 2%nat 1
                                     (Sample.world Sample.voted_257))))
                         2 (midnight (Sample.at_ 2016 3 15 12)) (Sample.at_ 2016 3 16 0))
   <= 1)%nat.
Proof.
  apply (accomplish_deed_keeps_one_vote_a_day (Sample.at_ 2016 3 15 12)
           (Sample.at_ 2016 3 16 0) 2%nat 1 (Sample.world Sample.voted_257));
    try reflexivity.
  intro uid. unfold votes_of.
  apply (Nat.le_trans _ _ _ (filter_length_le _ _)). vm_compute. lia.
Defined.

Lemma insert_deed_keeps_ids_distinct_witness :
  NoDup (map Deed.id (deeds (db (snd (Control.insert_deed (Sample.at_ 2016 3 15 9) 1%nat
                                        "Smile" (Sample.world Sample.voted_257)))))) /\
  NoDup (map Deed.id (deeds (db (snd (actions.insert_deed (Sample.at_ 2016 3 15 9)
                                        "Smile" (Sample.world Sample.voted_257)))))) /\
  db (snd (actions.insert_deed (Sample.at_ 2016 3 15 9) "Smile"
             (Sample.world Sample.voted_257)))
    = db (snd (Control.insert_deed (Sample.at_ 2016 3 15 9) 1%nat "Smile"
                 (Sample.world Sample.voted_257))).
Proof.
  apply (insert_deed_keeps_ids_distinct (Sample.at_ 2016 3 15 9) 1%nat "Smile"
           (Sample.world Sample.voted_257)).
  simpl. repeat constructor; simpl; intuition discriminate.
Defined.

Lemma accomplish_deed_keeps_ids_distinct_witness :
  NoDup (map Accomplishment.id
           (accomplishments (db (snd (Control.accomplish_deed (Sample.at_ 2016 3 16 12)
                                        1%nat 2 (Sample.world Sample.voted)))))).
Proof.
  apply (accomplish_deed_keeps_ids_distinct (Sample.at_ 2016 3 16 12) 1%nat 2
           (Sample.world Sample.voted)).
  simpl. repeat constructor; simpl; intuition discriminate.
Defined.

Lemma get_todays_deeds_not_voted_witness :
  fst (Control.get_todays_deeds Sample.rand (Sample.clock (Sample.at_ 2016 3 16 12))
         1%nat None (Sample.world Sample.voted))
  = Ok (map Deed.to_json
          (firstn 2 (Control.order_by_rand Sample.rand
                       (Datetime.strftime_Ymd (Sample.at_ 2016 3 16 12))
                       (Control.eligible Sample.voted (midnight (Sample.at_ 2016 3 16 12)))))) /\
  forall v, In v (map Deed.to_json
                    (firstn 2 (Control.order_by_rand Sample.rand
                                 (Datetime.strftime_Ymd (Sample.at_ 2016 3 16 12))
                                 (Control.eligible Sample.voted
                                    (midnight (Sample.at_ 2016 3 16 12))))))
            -> DeedView.percent_of_votes v = None.
Proof.
  apply (get_todays_deeds_not_voted Sample.rand (Sample.clock (Sample.at_ 2016 3 16 12))
           1%nat None (Sample.world Sample.voted) (Sample.at_ 2016 3 17 0) 1); reflexivity.
Defined.

Lemma get_todays_deeds_two_votes_witness :
  fst (Control.get_todays_deeds Sample.rand (Sample.clock (Sample.at_ 2016 3 15 12))
         1%nat None (Sample.world sample_voted_twice))
  = Raise MultipleResultsFound.
Proof.
  apply (get_todays_deeds_two_votes Sample.rand (Sample.clock (Sample.at_ 2016 3 15 12))
           1%nat None (Sample.world sample_voted_twice) (Sample.at_ 2016 3 16 0) 1
           (Accomplishment.make 1 1 1 (Sample.at_ 2016 3 15 8))
           (Accomplishment.make 2 2 1 (Sample.at_ 2016 3 15 9)) []);
    try reflexivity.
  discriminate.
Defined.

Lemma get_todays_deeds_candidates_witness :
  exists candidates,
    fst (Control.get_todays_deeds Sample.rand (Sample.clock (Sample.at_ 2016 3 15 12))
           0%nat None (Sample.world Sample.voted_257))
      = Ok (map Deed.to_json candidates) /\
    (List.length candidates <= 2)%nat /\
    NoDup (map DeedView.id (map Deed.to_json candidates)) /\
    forall d, In d candidates ->
              In d [Sample.recycle; Sample.donate; Sample.plant] /\
              Datetime.ltb (Deed.created d) (midnight (Sample.at_ 2016 3 15 12)) = true.
Proof.
  apply (get_todays_deeds_candidates Sample.rand (Sample.clock (Sample.at_ 2016 3 15 12))
           0%nat None (Sample.world Sample.voted_257) (Sample.at_ 2016 3 16 0));
    try reflexivity.
  simpl. repeat constructor; simpl; intuition discriminate.
Defined.

Lemma get_todays_deeds_after_insert_deed_witness :
  fst (Control.get_todays_deeds Sample.rand (Sample.clock (Sample.at_ 2016 3 15 12))
         0%nat None
         (snd (Control.insert_deed (Sample.at_ 2016 3 15 9) 1%nat "Smile"
                 (Sample.world Sample.fresh))))
  = fst (Control.get_todays_deeds Sample.rand (Sample.clock (Sample.at_ 2016 3 15 12))
           0%nat None (Sample.world Sample.fresh)).
Proof.
  apply (get_todays_deeds_after_insert_deed Sample.rand
           (Sample.clock (Sample.at_ 2016 3 15 12)) 0%nat 1%nat None
           (Sample.world Sample.fresh) (Sample.at_ 2016 3 16 0) (Sample.at_ 2016 3 15 9)
           "Smile"); reflexivity.
Defined.

Lemma get_todays_deeds_after_accomplish_deed_witness :
  let w1 := snd (Control.accomplish_deed (Sample.at_ 2016 3 15 12) 4%nat 2
                   (Sample.world Sample.voted_257)) in
  exists deed pct,
    In deed [Sample.recycle; Sample.donate; Sample.plant] /\
    Deed.id deed = 2 /\
    percent (votes_for (db w1) (midnight (Sample.at_ 2016 3 15 12)) (Sample.at_ 2016 3 16 0) 2)
            (Z.of_nat (List.length (votes_within (db w1) (midnight (Sample.at_ 2016 3 15 12))
                                                  (Sample.at_ 2016 3 16 0))))
      = Ok pct /\
    fst (Control.get_todays_deeds Sample.rand (Sample.clock (Sample.at_ 2016 3 15 20))
           4%nat None w1)
      = Ok [DeedView.update_percent_of_votes (Deed.to_json deed) pct].
Proof.
  apply (get_todays_deeds_after_accomplish_deed Sample.rand (Sample.at_ 2016 3 15 12)
           (Sample.at_ 2016 3 16 0) (Sample.clock (Sample.at_ 2016 3 15 20)) None
           4%nat 2 4 (Sample.world Sample.voted_257)); try reflexivity; lia.
Defined.

(** After the vote of the sample of X18, Dave sees 50.0: his vote and Alice's
    are the two of the day. *)
Lemma get_todays_deeds_after_accomplish_deed_sample :
  fst (Control.get_todays_deeds Sample.rand (Sample.clock (Sample.at_ 2016 3 15 20)) 4%nat None
         (snd (Control.accomplish_deed (Sample.at_ 2016 3 15 12) 4%nat 2
                 (Sample.world Sample.voted_257))))
  = Ok [DeedView.update_percent_of_votes (Deed.to_json Sample.donate) 50%float].
Proof. vm_compute. reflexivity. Qed.

Lemma request_accomplish_deed_broadcast_witness :
  let (r, w') := Control.request
                   (Control.accomplish_deed (Sample.at_ 2016 3 15 12) 1%nat 2)
                   (Sample.world Sample.fresh) in
  r = Ok tt /\
  outbox w' = outbox (Sample.world Sample.fresh) ++
              map (fun c => (c, mkNews "update_deed" (Deed.to_json Sample.donate)))
                  (_clients (Sample.world Sample.fresh)) /\
  _pending (visible w') = [] /\
  List.length (accomplishments (db w'))
    = S (List.length (accomplishments (db (Sample.world Sample.fresh)))).
Proof.
  apply (request_accomplish_deed_broadcast (Sample.at_ 2016 3 15 12) (Sample.at_ 2016 3 16 0)
           1%nat 2 (Sample.world Sample.fresh) Sample.alice Sample.donate); reflexivity.
Defined.
